(** * Salary dashboard (app.py): filter, aggregates and page rendering

    A shallow embedding of the Streamlit script [app.py].  The data frame is
    a list of rows in file order, the sidebar widgets are represented by the
    values they return, and the page is the list of elements the script
    emits, threaded through a small state-and-exception monad.  Calls that
    only arrange or style the page (page configuration, columns, figure
    layout) have no counterpart here.

    Numbers.  The column [usd] and every mean derived from it are exact
    rationals ([Q]); pandas computes them in binary64.  What is stated
    below about the order of means and about which rows an aggregate holds
    does not depend on the arithmetic; where an identity holds of the exact
    values only, the statement says so, and the country-year aggregate is
    given a second time over binary64 numbers to show what rounding does
    to it. *)

From Stdlib Require Import QArith Qminmax Floats.
From stdpp Require Import base list sorting strings gmap.

Local Open Scope Z_scope.
Local Open Scope string_scope.
Local Open Scope list_scope.

(** ** Data model *)

(** One row of the CSV; the fields are the columns the script reads. *)
Record linha := {
  ano : Z;
  senioridade : string;
  contrato : string;
  tamanho_empresa : string;
  cargo : string;
  remoto : string;
  residencia_iso3 : string;
  usd : Q
}.

Abbreviation DataFrame := (list linha).

(** The four lists returned by the sidebar multiselects. *)
Record selecao := {
  anos_selecionados : list Z;
  senioridades_selecionadas : list string;
  contratos_selecionados : list string;
  tamanhos_selecionados : list string
}.

(** ** Column helpers: [unique] and [sorted] *)

(** [Series.unique()]: distinct values in order of first appearance. *)
Fixpoint unique `{EqDecision A} (l : list A) : list A :=
  match l with
  | [] => []
  | x :: l' => x :: filter (λ y, y ≠ x) (unique l')
  end.

(** Python's [sorted] on integers and on strings. *)
Definition sorted_Z (l : list Z) : list Z := merge_sort Z.le l.
Definition sorted_str (l : list string) : list string := merge_sort String.le l.

(** ** Sidebar *)

Definition anos_disponiveis (df : DataFrame) : list Z :=
  sorted_Z (unique (ano <$> df)).
Definition senioridades_disponiveis (df : DataFrame) : list string :=
  sorted_str (unique (senioridade <$> df)).
Definition contratos_disponiveis (df : DataFrame) : list string :=
  sorted_str (unique (contrato <$> df)).
Definition tamanhos_disponiveis (df : DataFrame) : list string :=
  sorted_str (unique (tamanho_empresa <$> df)).

(** [st.sidebar.multiselect(label, options, default=...)]: the default until
    the user picks something, then the user's picks. *)
Definition multiselect {A} (options default : list A)
    (picked : option (list A)) : list A :=
  match picked with
  | None => default
  | Some l => l
  end.

(** The selection of a session in which no multiselect was touched. *)
Definition selecao_padrao (df : DataFrame) : selecao :=
  {| anos_selecionados :=
       multiselect (anos_disponiveis df) (anos_disponiveis df) None;
     senioridades_selecionadas :=
       multiselect (senioridades_disponiveis df) (senioridades_disponiveis df) None;
     contratos_selecionados :=
       multiselect (contratos_disponiveis df) (contratos_disponiveis df) None;
     tamanhos_selecionados :=
       multiselect (tamanhos_disponiveis df) (tamanhos_disponiveis df) None |}.

(** ** Filtering *)

(** The query string of [df.query]: four [in] tests joined by [and]. *)
Definition consulta (s : selecao) (r : linha) : Prop :=
  ano r ∈ anos_selecionados s
  ∧ senioridade r ∈ senioridades_selecionadas s
  ∧ contrato r ∈ contratos_selecionados s
  ∧ tamanho_empresa r ∈ tamanhos_selecionados s.

Global Instance consulta_dec s r : Decision (consulta s r).
Proof. unfold consulta. apply _. Defined.

Definition df_filtrado (df : DataFrame) (s : selecao) : DataFrame :=
  filter (consulta s) df.

(** The reading of "the records that pass, in their original order", stated
    on its own: walk the input once, keep a row exactly when it passes. *)
Inductive mantidas (P : linha → Prop) : DataFrame → DataFrame → Prop :=
| mantidas_nil : mantidas P [] []
| mantidas_keep r l out : P r → mantidas P l out → mantidas P (r :: l) (r :: out)
| mantidas_drop r l out : ¬ P r → mantidas P l out → mantidas P (r :: l) out.

(** ** Numeric reductions *)

Definition soma (l : list Q) : Q := foldr Qplus 0%Q l.

(** [Series.mean()].  On an empty column pandas yields NaN; here the total
    division of [Q] yields 0.  The script only takes means of non-empty
    columns (see [groupby_group_nonempty] and the guards of [app]). *)
Definition mean (l : list Q) : Q :=
  (soma l / inject_Z (Z.of_nat (length l)))%Q.

(** [Series.max()], likewise only reached on a non-empty column. *)
Definition maximo (l : list Q) : Q :=
  match l with
  | [] => 0%Q
  | x :: l' => foldl Qmax x l'
  end.

(** ** Stable sorting

    Insertion of [x] in front of the first element it may precede; folding
    it from the right keeps equal elements in their input order. *)
Section estavel.
Context {A : Type} (le : A → A → bool).

Fixpoint inserir (x : A) (l : list A) : list A :=
    match l with
    | [] => [x]
    | y :: l' => if le x y then x :: l else y :: inserir x l'
    end.

Definition ordenar (l : list A) : list A := foldr inserir [] l.

  (** The order a stable sort produces from an input that is ordered by
      [T]: ascending for [le], and by [T] where [le] does not separate. *)
Definition antes (T : relation A) : relation A :=
    λ a b, le a b = true ∧ (le b a = true → T a b).
End estavel.

(** ** Group-by and mean

    [df.groupby(key)['usd'].mean()]: one row per distinct key, keys in sorted
    order (pandas sorts group keys by default), each with the mean of [usd]
    over the rows carrying that key. *)
Definition grupo `{EqDecision K} (key : linha → K) (k : K) (df : DataFrame)
    : DataFrame :=
  filter (λ r, key r = k) df.

Definition groupby_mean `{EqDecision K} (sorted : list K → list K)
    (key : linha → K) (df : DataFrame) : list (K * Q) :=
  (λ k, (k, mean (usd <$> grupo key k df))) <$> sorted (unique (key <$> df)).

(** ** Top-N by role *)

Definition salario_cargo (dff : DataFrame) : list (string * Q) :=
  groupby_mean sorted_str cargo dff.

Definition maior_ou_igual (a b : string * Q) : bool := Qle_bool (snd b) (snd a).
Definition menor_ou_igual (a b : string * Q) : bool := Qle_bool (snd a) (snd b).

(** [DataFrame.nlargest(n, 'usd')] with the default [keep='first']: the first
    [n] rows in descending order of [usd], rows of equal [usd] in the order
    they have in the frame; no row for [n <= 0]. *)
Definition nlargest (n : Z) (rows : list (string * Q)) : list (string * Q) :=
  if decide (n ≤ 0)%Z then [] else take (Z.to_nat n) (ordenar maior_ou_igual rows).

(** [sort_values('usd', ascending=True)].  Rows of equal [usd] keep their
    order here; pandas leaves their order to the sorting algorithm, and no
    property below depends on it. *)
Definition sort_values_asc (rows : list (string * Q)) : list (string * Q) :=
  ordenar menor_ou_igual rows.

Definition top_cargos (dff : DataFrame) (top_n : Z) : list (string * Q) :=
  sort_values_asc (nlargest top_n (salario_cargo dff)).

(** Position of the first row of the frame that carries role [c]. *)
Fixpoint primeiro_indice (c : string) (col : list string) : nat :=
  match col with
  | [] => 0
  | x :: col' => if decide (x = c) then 0%nat else S (primeiro_indice c col')
  end.

(** Tie-breaking by encounter order, as a property of one frame and one
    [n]: of two roles with equal mean, the one met first in the frame is
    selected whenever the other is. *)
Definition desempate_por_encontro (dff : DataFrame) (n : Z) : Prop :=
  ∀ c1 c2, c1 ∈ cargo <$> dff → c2 ∈ cargo <$> dff →
    (mean (usd <$> grupo cargo c1 dff) == mean (usd <$> grupo cargo c2 dff))%Q →
    (primeiro_indice c1 (cargo <$> dff) < primeiro_indice c2 (cargo <$> dff))%nat →
    c2 ∈ fst <$> top_cargos dff n → c1 ∈ fst <$> top_cargos dff n.

(** ** Value counts *)

(** [Series.value_counts()]: distinct labels with their number of
    occurrences, most frequent first, labels of equal count in order of
    first appearance. *)
Definition value_counts (col : list string) : list (string * nat) :=
  ordenar (λ a b, (snd b <=? snd a)%nat)
    ((λ k, (k, length (filter (λ x, x = k) col))) <$> unique col).

Inductive exn := ValueError | KeyError.

(** [Series.idxmax()]: label of the first maximal entry; raises on an empty
    series. *)
Fixpoint idxmax_desde (best : string * nat) (l : list (string * nat)) : string :=
  match l with
  | [] => fst best
  | x :: l' => idxmax_desde (if (snd best <? snd x)%nat then x else best) l'
  end.

Definition idxmax (vc : list (string * nat)) : exn + string :=
  match vc with
  | [] => inl ValueError
  | x :: l => inr (idxmax_desde x l)
  end.

(** ** Sliders *)

(** [st.sidebar.slider(label, min_value, max_value, value, step)]: [value]
    until the handle is moved; afterwards the handle rests [k] steps above
    [min_value], and cannot pass [max_value]. *)
Definition slider (min_value max_value value step : Z) (handle : option nat) : Z :=
  match handle with
  | None => value
  | Some k => Z.min max_value (min_value + Z.of_nat k * step)
  end.

(** What the user did with the sidebar widgets in a session. *)
Record sessao := {
  w_anos : option (list Z);
  w_senioridades : option (list string);
  w_contratos : option (list string);
  w_tamanhos : option (list string);
  w_top_n : option nat;
  w_hist_bins : option nat
}.

Definition selecao_de (df : DataFrame) (ui : sessao) : selecao :=
  {| anos_selecionados :=
       multiselect (anos_disponiveis df) (anos_disponiveis df) (w_anos ui);
     senioridades_selecionadas :=
       multiselect (senioridades_disponiveis df) (senioridades_disponiveis df)
         (w_senioridades ui);
     contratos_selecionados :=
       multiselect (contratos_disponiveis df) (contratos_disponiveis df)
         (w_contratos ui);
     tamanhos_selecionados :=
       multiselect (tamanhos_disponiveis df) (tamanhos_disponiveis df)
         (w_tamanhos ui) |}.

Definition top_n_cargos (ui : sessao) : Z := slider 5 20 10 1 (w_top_n ui).
Definition hist_bins (ui : sessao) : Z := slider 10 50 30 1 (w_hist_bins ui).

(** ** Country enrichment and the country-year aggregate *)

(** An entry of the pycountry table, with the two attributes the script
    reads. *)
Record country := { name : string; alpha_2 : string }.

(** One row of [df_anim] once all its columns are attached. *)
Record linha_anim := {
  a_ano : Z;
  a_residencia_iso3 : string;
  a_usd : Q;
  pais_full : string;
  pais_abrev : string;
  cor : Q
}.

Definition ano_pais (r : linha) : Z * string := (ano r, residencia_iso3 r).

(** Order of the group keys of [groupby(['ano', 'residencia_iso3'])]. *)
Definition par_le (a b : Z * string) : Prop :=
  (fst a < fst b)%Z ∨ (fst a = fst b ∧ String.le (snd a) (snd b)).

Global Instance par_le_dec : RelDecision par_le.
Proof. intros a b. unfold par_le. apply _. Defined.

Definition sorted_par (l : list (Z * string)) : list (Z * string) :=
  merge_sort par_le l.

(** [df[df['cargo'] == 'Data Scientist']]. *)
Definition df_ds (dff : DataFrame) : DataFrame :=
  filter (λ r, cargo r = "Data Scientist") dff.

(** [groupby(['ano','residencia_iso3'], as_index=False)['usd'].mean()]
    followed by [sort_values('usd', ascending=False)] (rows of equal [usd]
    in group-key order). *)
Definition media_ano_pais (ds : DataFrame) : list (Z * string * Q) :=
  ordenar (λ a b, Qle_bool (snd b) (snd a)) (groupby_mean sorted_par ano_pais ds).

(** [df_ds.groupby('ano')['usd'].mean().to_dict()]. *)
Definition media_global (ds : DataFrame) : gmap Z Q :=
  list_to_map (groupby_mean sorted_Z ano ds).

(** [d[k]] on a dict: [KeyError] when the key is absent. *)
Definition getitem (d : gmap Z Q) (k : Z) : exn + Q :=
  match d !! k with
  | Some v => inr v
  | None => inl KeyError
  end.

(** [apply] of a function that may raise, row by row. *)
Fixpoint apply_rows {A B} (f : A → exn + B) (l : list A) : exn + list B :=
  match l with
  | [] => inr []
  | x :: l' =>
      match f x with
      | inl e => inl e
      | inr y =>
          match apply_rows f l' with
          | inl e => inl e
          | inr ys => inr (y :: ys)
          end
      end
  end.

Section pycountry.
  (** [pycountry.countries.get(alpha_3=code)]: the external reference table,
      [None] for a code it does not hold. *)
Variable countries_get : string → option country.

  (** [code[:2]] is the prefix of at most two characters. *)
Definition obter_pais_info (code : string) : string * string :=
    match countries_get code with
    | Some c => (name c, alpha_2 c)
    | None => (code, String.substring 0 2 code)
    end.

  (** The three column assignments of the section: names, then [cor], the
      mean of the group minus the mean of its year. *)
Definition linha_de_anim (mg : gmap Z Q) (g : Z * string * Q)
      : exn + linha_anim :=
    let info := obter_pais_info (snd (fst g)) in
    match getitem mg (fst (fst g)) with
    | inl e => inl e
    | inr m =>
        inr {| a_ano := fst (fst g); a_residencia_iso3 := snd (fst g);
               a_usd := snd g; pais_full := fst info; pais_abrev := snd info;
               cor := (snd g - m)%Q |}
    end.

Definition df_anim (ds : DataFrame) : exn + list linha_anim :=
    apply_rows (linha_de_anim (media_global ds)) (media_ano_pais ds).
End pycountry.

(** What the aggregate is expected to hold for the group with key [k] (a
    year and a country) of the role-restricted frame [ds]: the mean of the
    group, and as [cor] that mean minus the mean of all rows of [ds] of the
    same year. *)
Definition linha_esperada (countries_get : string → option country)
    (ds : DataFrame) (k : Z * string) : linha_anim :=
  {| a_ano := fst k; a_residencia_iso3 := snd k;
     a_usd := mean (usd <$> grupo ano_pais k ds);
     pais_full := fst (obter_pais_info countries_get (snd k));
     pais_abrev := snd (obter_pais_info countries_get (snd k));
     cor := (mean (usd <$> grupo ano_pais k ds)
             - mean (usd <$> grupo ano (fst k) ds))%Q |}.

(** ** Groups, read off the frame row by row

    The rows of a frame that carry a given role, a given year, or a given
    year and country, picked in one pass with the equality tests of the
    columns.  The properties of the aggregates are stated with these, not
    with the grouping the aggregates are computed by. *)
Fixpoint linhas_com (p : linha → bool) (df : DataFrame) : DataFrame :=
  match df with
  | [] => []
  | r :: df' => if p r then r :: linhas_com p df' else linhas_com p df'
  end.

Definition linhas_do_cargo (c : string) : DataFrame → DataFrame :=
  linhas_com (λ r, String.eqb (cargo r) c).
Definition linhas_do_ano (a : Z) : DataFrame → DataFrame :=
  linhas_com (λ r, Z.eqb (ano r) a).
Definition linhas_do_ano_pais (a : Z) (p : string) : DataFrame → DataFrame :=
  linhas_com (λ r, Z.eqb (ano r) a && String.eqb (residencia_iso3 r) p).

(** ** The country-year aggregate in binary64

    The same steps as [df_anim] (lines 126 to 140 of the script) on a frame
    whose [usd] column holds binary64 numbers, for the three columns those
    lines read.  Sums are taken left to right; the compensated and pairwise
    sums of pandas give the same value whenever every partial sum is a
    binary64 number, as it is for the small integers of [ds_122] below, so
    that only the roundings of division, subtraction and multiplication
    remain. *)
Record linha_f := {
  f_ano : Z;
  f_residencia_iso3 : string;
  f_usd : float
}.

Definition soma_f (l : list float) : float := foldl PrimFloat.add 0%float l.

Definition float_of_nat (n : nat) : float :=
  PrimFloat.of_uint63 (Uint63.of_Z (Z.of_nat n)).

Definition mean_f (l : list float) : float :=
  (soma_f l / float_of_nat (length l))%float.

Definition grupo_f `{EqDecision K} (key : linha_f → K) (k : K)
    (ds : list linha_f) : list linha_f :=
  filter (λ r, key r = k) ds.

Definition groupby_mean_f `{EqDecision K} (sorted : list K → list K)
    (key : linha_f → K) (ds : list linha_f) : list (K * float) :=
  (λ k, (k, mean_f (f_usd <$> grupo_f key k ds))) <$> sorted (unique (key <$> ds)).

Definition ano_pais_f (r : linha_f) : Z * string := (f_ano r, f_residencia_iso3 r).

Definition media_ano_pais_f (ds : list linha_f) : list (Z * string * float) :=
  ordenar (λ a b, PrimFloat.leb (snd b) (snd a))
    (groupby_mean_f sorted_par ano_pais_f ds).

Definition media_global_f (ds : list linha_f) : gmap Z float :=
  list_to_map (groupby_mean_f sorted_Z f_ano ds).

(** A row of the aggregate: year, country, mean and [cor]. *)
Record linha_anim_f := {
  af_ano : Z;
  af_residencia_iso3 : string;
  af_usd : float;
  af_cor : float
}.

Definition linha_de_anim_f (mg : gmap Z float) (g : Z * string * float)
    : exn + linha_anim_f :=
  match mg !! fst (fst g) with
  | None => inl KeyError
  | Some m =>
      inr {| af_ano := fst (fst g); af_residencia_iso3 := snd (fst g);
             af_usd := snd g; af_cor := (snd g - m)%float |}
  end.

Definition df_anim_f (ds : list linha_f) : exn + list linha_anim_f :=
  apply_rows (linha_de_anim_f (media_global_f ds)) (media_ano_pais_f ds).

(** The check of the aggregate: for one year, the sum over its rows of
    [cor] times the number of records of the group. *)
Definition soma_desvios_f (ds : list linha_f) (rows : list linha_anim_f)
    (a : Z) : float :=
  soma_f ((λ row, (af_cor row
                   * float_of_nat (length
                       (grupo_f ano_pais_f (af_ano row, af_residencia_iso3 row) ds)))%float)
          <$> filter (λ row, af_ano row = a) rows).

(** ** The page *)

Inductive valor :=
| v_num (q : Q)
| v_int (n : Z)
| v_str (s : string).

Inductive figura :=
| fig_top (data : list (string * Q)) (top_n : Z)
| fig_hist (data : list Q) (nbins : Z)
| fig_remoto (data : list (string * nat))
| fig_bar_anim (data : list linha_anim).

Inductive elemento :=
| title (s : string)
| markdown (s : string)
| subheader (s : string)
| metric (label : string) (v : valor)
| plotly_chart (fig : figura)
| dataframe (rows : DataFrame).

(** A script appends elements to the page and may stop with an exception;
    what was emitted before the exception stays on the page. *)
Definition St (A : Type) : Type := list elemento → (exn + A) * list elemento.

Global Instance St_ret : MRet St := λ A a p, (inr a, p).
Global Instance St_bind : MBind St := λ A B f m p,
  match m p with
  | (inr a, p') => f a p'
  | (inl e, p') => (inl e, p')
  end.
Definition emit (e : elemento) : St unit := λ p, (inr tt, p ++ [e]).
Definition lift {A} (r : exn + A) : St A := λ p, (r, p).

Definition vazio (df : DataFrame) : bool :=
  match df with [] => true | _ => false end.

(** The four summary metrics, with the defaults of the [else] branch. *)
Definition metricas (dff : DataFrame) : exn + (valor * valor * valor * valor) :=
  if negb (vazio dff) then
    match idxmax (value_counts (cargo <$> dff)) with
    | inl e => inl e
    | inr cargo_mais_frequente =>
        inr (v_num (mean (usd <$> dff)), v_num (maximo (usd <$> dff)),
             v_int (Z.of_nat (length dff)), v_str cargo_mais_frequente)
    end
  else inr (v_int 0, v_int 0, v_int 0, v_str "").

Definition graficos_gerais (dff : DataFrame) (top_n bins : Z) : St unit :=
  if negb (vazio dff) then
    emit (subheader "Top cargos") ;;
    emit (plotly_chart (fig_top (top_cargos dff top_n) top_n)) ;;
    emit (markdown "---") ;;
    emit (subheader "Distribuição de salários") ;;
    emit (plotly_chart (fig_hist (usd <$> dff) bins)) ;;
    emit (markdown "---") ;;
    emit (plotly_chart (fig_remoto (value_counts (remoto <$> dff))))
  else mret tt.

Definition titulo_pagina : string :=
  "🎲 Dashboard de Análise de Salários na Área de Dados".
Definition texto_introducao : string :=
  "Explore os dados salariais na área de dados nos últimos anos. Utilize os filtros à esquerda para refinar sua análise.".

Section script.
Variable countries_get : string → option country.

  (** The "Cientistas de Dados" section: its subheader, then the animated
      bar chart when the role-restricted frame has rows. *)
Definition secao_cientistas (dff : DataFrame) : St unit :=
    if negb (vazio dff) then
      let ds := df_ds dff in
      emit (subheader "Cientistas de Dados") ;;
      if negb (vazio ds) then
        anim ← lift (df_anim countries_get ds) ;
        emit (plotly_chart (fig_bar_anim anim))
      else mret tt
    else mret tt.

  (** The script, top to bottom, for a loaded frame and a session. *)
Definition app (df : DataFrame) (ui : sessao) : St unit :=
    let dff := df_filtrado df (selecao_de df ui) in
    emit (title titulo_pagina) ;;
    emit (markdown texto_introducao) ;;
    emit (subheader "Métricas gerais (Salário anual em USD)") ;;
    m ← lift (metricas dff) ;
    let '(salario_medio, salario_maximo, total_registros, cargo_mais_frequente) := m in
    emit (metric "Salário médio" salario_medio) ;;
    emit (metric "Salário máximo" salario_maximo) ;;
    emit (metric "Total de registros" total_registros) ;;
    emit (metric "Cargo mais frequente" cargo_mais_frequente) ;;
    emit (markdown "---") ;;
    graficos_gerais dff (top_n_cargos ui) (hist_bins ui) ;;
    secao_cientistas dff ;;
    emit (subheader "Dados Detalhados") ;;
    emit (dataframe (take 1000 dff)).
End script.

(** The elements that are charts, and those that are metrics. *)
Definition e_grafico (e : elemento) : bool :=
  match e with plotly_chart _ => true | _ => false end.
Definition e_metrica (e : elemento) : bool :=
  match e with metric _ _ => true | _ => false end.

(** ** The page as a value

    What the script is expected to leave on the page, written as a plain
    function of the frame and the session, to compare the script with. *)

(** The row of [df_anim] built from one row [(key, mean)] of the grouped
    frame, when the yearly mean is found. *)
Definition linha_do_grupo (countries_get : string → option country)
    (ds : DataFrame) (g : Z * string * Q) : linha_anim :=
  {| a_ano := fst (fst g); a_residencia_iso3 := snd (fst g); a_usd := snd g;
     pais_full := fst (obter_pais_info countries_get (snd (fst g)));
     pais_abrev := snd (obter_pais_info countries_get (snd (fst g)));
     cor := (snd g - mean (usd <$> grupo ano (fst (fst g)) ds))%Q |}.

Definition cargo_frequente (dff : DataFrame) : string :=
  match value_counts (cargo <$> dff) with
  | [] => ""
  | x :: l => idxmax_desde x l
  end.

Definition pagina_metricas (dff : DataFrame) : list elemento :=
  if vazio dff then
    [ metric "Salário médio" (v_int 0); metric "Salário máximo" (v_int 0);
      metric "Total de registros" (v_int 0);
      metric "Cargo mais frequente" (v_str "") ]
  else
    [ metric "Salário médio" (v_num (mean (usd <$> dff)));
      metric "Salário máximo" (v_num (maximo (usd <$> dff)));
      metric "Total de registros" (v_int (Z.of_nat (length dff)));
      metric "Cargo mais frequente" (v_str (cargo_frequente dff)) ].

Definition pagina_graficos (dff : DataFrame) (top_n bins : Z) : list elemento :=
  if vazio dff then []
  else
    [ subheader "Top cargos";
      plotly_chart (fig_top (top_cargos dff top_n) top_n);
      markdown "---";
      subheader "Distribuição de salários";
      plotly_chart (fig_hist (usd <$> dff) bins);
      markdown "---";
      plotly_chart (fig_remoto (value_counts (remoto <$> dff))) ].

Definition pagina_cientistas (countries_get : string → option country)
    (dff : DataFrame) : list elemento :=
  if vazio dff then []
  else if vazio (df_ds dff) then [ subheader "Cientistas de Dados" ]
  else
    [ subheader "Cientistas de Dados";
      plotly_chart (fig_bar_anim
        (linha_do_grupo countries_get (df_ds dff) <$> media_ano_pais (df_ds dff))) ].

Definition pagina (countries_get : string → option country)
    (df : DataFrame) (ui : sessao) : list elemento :=
  let dff := df_filtrado df (selecao_de df ui) in
  [ title titulo_pagina; markdown texto_introducao;
    subheader "Métricas gerais (Salário anual em USD)" ]
  ++ pagina_metricas dff ++ [ markdown "---" ]
  ++ pagina_graficos dff (top_n_cargos ui) (hist_bins ui)
  ++ pagina_cientistas countries_get dff
  ++ [ subheader "Dados Detalhados"; dataframe (take 1000 dff) ].

(** ** Figure layout

    The layout of a plotly figure is a tree of properties; it is kept here
    as a map from property paths ([margin.l], [title.x], ...) to values.
    [update_layout] assigns the properties it is given, nested ones
    included, and leaves every other property as it was. *)
Record figure := {
  fig_data : figura;
  fig_layout : gmap string valor
}.

(** [padronizar_layout(fig, altura=400, titulo_x=0.05)]; an argument that
    is not passed takes its default.  The function updates the figure it is
    given and returns it; the callers use the returned figure only.  plotly
    validates what it is given: a height below 10 or a title position
    outside the interval from 0 to 1 raises [ValueError]. *)
Definition padronizar_layout (fig : figure) (altura : option Z)
    (titulo_x : option Q) : exn + figure :=
  let height := default 400%Z altura in
  let title_x := default (5 # 100)%Q titulo_x in
  if decide (height < 10)%Z then inl ValueError
  else if negb (Qle_bool 0 title_x && Qle_bool title_x 1) then inl ValueError
  else
    inr {| fig_data := fig_data fig;
           fig_layout :=
             <["margin.l" := v_int 50]> (<["margin.r" := v_int 50]>
             (<["margin.t" := v_int 50]> (<["margin.b" := v_int 50]>
             (<["title.x" := v_num title_x]>
             (<["height" := v_int height]>
             (<["font.family" := v_str "Arial, sans-serif"]>
             (<["font.size" := v_int 14]>
             (<["transition.duration" := v_int 1000]>
             (<["transition.easing" := v_str "cubic-in-out"]>
             (fig_layout fig)))))))))) |}.

(** The properties [padronizar_layout] assigns. *)
Definition propriedades_padronizadas : list string :=
  [ "margin.l"; "margin.r"; "margin.t"; "margin.b"; "title.x"; "height";
    "font.family"; "font.size"; "transition.duration"; "transition.easing" ].

(** Sum of the counts of a frequency table. *)
Definition total_contagens (vc : list (string * nat)) : nat :=
  sum_list (snd <$> vc).

(** ** Sample data *)

Definition linha_de (a : Z) (c p : string) (u : Z) : linha :=
  {| ano := a; senioridade := "senior"; contrato := "integral";
     tamanho_empresa := "M"; cargo := c; remoto := "remoto";
     residencia_iso3 := p; usd := inject_Z u |}.

(** The three records of the worked example of the specification, and a row
    of another role. *)
Definition df_exemplo : DataFrame :=
  [ linha_de 2023 "Data Scientist" "BRA" 50000;
    linha_de 2023 "Data Scientist" "USA" 70000;
    linha_de 2022 "Data Scientist" "BRA" 60000;
    linha_de 2022 "Data Engineer" "XXX" 40000 ].

(** Six roles with the same salary, met in reverse alphabetical order. *)
Definition df_empate : DataFrame :=
  [ linha_de 2023 "F" "BRA" 100; linha_de 2023 "E" "BRA" 100;
    linha_de 2023 "D" "BRA" 100; linha_de 2023 "C" "BRA" 100;
    linha_de 2023 "B" "BRA" 100; linha_de 2023 "A" "BRA" 100 ].

(** Six roles with several rows each and six different means. *)
Definition df_cargos : DataFrame :=
  [ linha_de 2023 "D" "BRA" 50; linha_de 2023 "A" "BRA" 100;
    linha_de 2023 "C" "USA" 400; linha_de 2022 "F" "BRA" 10;
    linha_de 2022 "A" "USA" 300; linha_de 2023 "E" "BRA" 1000;
    linha_de 2023 "D" "USA" 70; linha_de 2022 "C" "BRA" 600;
    linha_de 2023 "B" "BRA" 150; linha_de 2022 "F" "USA" 20;
    linha_de 2022 "D" "BRA" 90 ].

(** One year, one record in one country and two records of equal salary in
    another. *)
Definition ds_122 : list linha_f :=
  [ {| f_ano := 2023; f_residencia_iso3 := "BRA"; f_usd := 1%float |};
    {| f_ano := 2023; f_residencia_iso3 := "USA"; f_usd := 2%float |};
    {| f_ano := 2023; f_residencia_iso3 := "USA"; f_usd := 2%float |} ].

(** A figure as [px.bar] hands it over, with a title and a template the
    script does not touch. *)
Definition figura_exemplo : figure :=
  {| fig_data := fig_top [("Data Scientist", 60000%Q)] 10;
     fig_layout := {[ "title.text" := v_str "Top 10 cargos por salário médio";
                      "barmode" := v_str "relative" ]} |}.

(** A filtered frame without any Data Scientist row. *)
Definition df_sem_cientistas : DataFrame :=
  [ linha_de 2022 "Data Engineer" "XXX" 40000 ].

(** A two-entry excerpt of the country table. *)
Definition countries_exemplo (code : string) : option country :=
  if decide (code = "BRA") then Some {| name := "Brazil"; alpha_2 := "BR" |}
  else if decide (code = "USA") then Some {| name := "United States"; alpha_2 := "US" |}
  else None.

(** Two selections that differ only in a year no row carries. *)
Definition selecao_2023 : selecao :=
  {| anos_selecionados := [2023]%Z; senioridades_selecionadas := ["senior"];
     contratos_selecionados := ["integral"]; tamanhos_selecionados := ["M"] |}.
Definition selecao_2023_1999 : selecao :=
  {| anos_selecionados := [1999; 2023]%Z; senioridades_selecionadas := ["senior"];
     contratos_selecionados := ["integral"]; tamanhos_selecionados := ["M"] |}.

(** A session in which the year filter was narrowed to 2023. *)
Definition sessao_2023 : sessao :=
  {| w_anos := Some [2023]%Z; w_senioridades := None; w_contratos := None;
     w_tamanhos := None; w_top_n := Some 0%nat; w_hist_bins := Some 100%nat |}.

Definition sessao_inicial : sessao :=
  {| w_anos := None; w_senioridades := None; w_contratos := None;
     w_tamanhos := None; w_top_n := None; w_hist_bins := None |}.

(** * Properties *)

(** ** Columns: [unique] and [sorted] *)

Lemma elem_of_unique `{EqDecision A} (l : list A) x : x ∈ unique l ↔ x ∈ l.
Proof.
  induction l as [|y l IH]; simpl; [done|].
  rewrite !elem_of_cons, list_elem_of_filter, IH.
  destruct (decide (x = y)); tauto.
Qed.

Lemma NoDup_unique `{EqDecision A} (l : list A) : NoDup (unique l).
Proof.
  induction l as [|y l IH]; simpl; [constructor|].
  constructor; [|by apply NoDup_filter].
  rewrite list_elem_of_filter. tauto.
Qed.

Lemma elem_of_sorted_Z l x : x ∈ sorted_Z l ↔ x ∈ l.
Proof. unfold sorted_Z. by rewrite merge_sort_Permutation. Qed.

Lemma elem_of_sorted_str l x : x ∈ sorted_str l ↔ x ∈ l.
Proof. unfold sorted_str. by rewrite merge_sort_Permutation. Qed.

Lemma elem_of_anos_disponiveis df x : x ∈ anos_disponiveis df ↔ x ∈ ano <$> df.
Proof. unfold anos_disponiveis. by rewrite elem_of_sorted_Z, elem_of_unique. Qed.

Lemma elem_of_senioridades_disponiveis df x :
  x ∈ senioridades_disponiveis df ↔ x ∈ senioridade <$> df.
Proof.
  unfold senioridades_disponiveis. by rewrite elem_of_sorted_str, elem_of_unique.
Qed.

Lemma elem_of_contratos_disponiveis df x :
  x ∈ contratos_disponiveis df ↔ x ∈ contrato <$> df.
Proof.
  unfold contratos_disponiveis. by rewrite elem_of_sorted_str, elem_of_unique.
Qed.

Lemma elem_of_tamanhos_disponiveis df x :
  x ∈ tamanhos_disponiveis df ↔ x ∈ tamanho_empresa <$> df.
Proof.
  unfold tamanhos_disponiveis. by rewrite elem_of_sorted_str, elem_of_unique.
Qed.

(** ** The filter *)

Lemma mantidas_filter (P : linha → Prop) `{∀ r, Decision (P r)} df :
  mantidas P df (filter P df).
Proof.
  induction df as [|r df IH]; [constructor|].
  destruct (decide (P r)) as [HP|HP].
  - rewrite filter_cons_True by done. by constructor.
  - rewrite filter_cons_False by done. by constructor.
Qed.

Lemma mantidas_unique (P : linha → Prop) `{∀ r, Decision (P r)} df out :
  mantidas P df out → out = filter P df.
Proof.
  induction 1 as [|r l out HP _ IH|r l out HP _ IH].
  - done.
  - rewrite filter_cons_True by done. by f_equal.
  - by rewrite filter_cons_False.
Qed.

(** C1. For every frame and every selection, the filtered frame is a
    subsequence of the input (original relative order), a row belongs to it
    exactly when it belongs to the input and each of its year, seniority,
    contract type and company size is a member of the corresponding selected
    list, and it is the one list obtained by walking the input and keeping
    precisely the rows that pass. *)
Theorem df_filtrado_spec (df : DataFrame) (s : selecao) :
  df_filtrado df s `sublist_of` df
  ∧ (∀ r, r ∈ df_filtrado df s ↔
       r ∈ df ∧ ano r ∈ anos_selecionados s
       ∧ senioridade r ∈ senioridades_selecionadas s
       ∧ contrato r ∈ contratos_selecionados s
       ∧ tamanho_empresa r ∈ tamanhos_selecionados s)
  ∧ (∀ out, mantidas (consulta s) df out ↔ out = df_filtrado df s).
Proof.
  unfold df_filtrado. split; [apply sublist_filter|]. split.
  - intros r. rewrite list_elem_of_filter. unfold consulta. tauto.
  - intros out. split; [apply mantidas_unique|].
    intros ->. apply mantidas_filter.
Qed.

Lemma filter_all (P : linha → Prop) `{∀ r, Decision (P r)} (df : DataFrame) :
  (∀ r, r ∈ df → P r) → filter P df = df.
Proof.
  induction df as [|r df IH]; intros Hall; [done|].
  rewrite filter_cons_True by (apply Hall; left).
  f_equal. apply IH. intros r' Hr'. apply Hall. by right.
Qed.

(** C5. If each of the four selected lists holds exactly the values observed
    in its column of the frame, filtering returns the frame itself. *)
Theorem df_filtrado_full_selection (df : DataFrame) (s : selecao) :
  (∀ x, x ∈ anos_selecionados s ↔ x ∈ ano <$> df) →
  (∀ x, x ∈ senioridades_selecionadas s ↔ x ∈ senioridade <$> df) →
  (∀ x, x ∈ contratos_selecionados s ↔ x ∈ contrato <$> df) →
  (∀ x, x ∈ tamanhos_selecionados s ↔ x ∈ tamanho_empresa <$> df) →
  df_filtrado df s = df.
Proof.
  intros Ha Hs Hc Ht. apply filter_all. intros r Hr.
  unfold consulta. rewrite Ha, Hs, Hc, Ht.
  repeat split; by apply list_elem_of_fmap_2.
Qed.

(** The default selection computed by the sidebar holds exactly the observed
    values, so the untouched dashboard shows the whole frame. *)
Lemma selecao_padrao_observed df :
  (∀ x, x ∈ anos_selecionados (selecao_padrao df) ↔ x ∈ ano <$> df)
  ∧ (∀ x, x ∈ senioridades_selecionadas (selecao_padrao df) ↔ x ∈ senioridade <$> df)
  ∧ (∀ x, x ∈ contratos_selecionados (selecao_padrao df) ↔ x ∈ contrato <$> df)
  ∧ (∀ x, x ∈ tamanhos_selecionados (selecao_padrao df) ↔ x ∈ tamanho_empresa <$> df).
Proof.
  simpl. split; [apply elem_of_anos_disponiveis|].
  split; [apply elem_of_senioridades_disponiveis|].
  split; [apply elem_of_contratos_disponiveis|apply elem_of_tamanhos_disponiveis].
Qed.

Lemma df_filtrado_full_selection_witness :
  df_filtrado df_exemplo (selecao_padrao df_exemplo) = df_exemplo.
Proof.
  apply (df_filtrado_full_selection df_exemplo (selecao_padrao df_exemplo));
    intros x;
    (split; intros H; apply list_elem_of_In; apply list_elem_of_In in H;
     vm_compute in H |- *; tauto).
Defined.

(** C6. If at least one of the four selected lists is empty, the filtered
    frame is empty: an empty list rejects every row. *)
Theorem df_filtrado_empty_dimension (df : DataFrame) (s : selecao) :
  anos_selecionados s = [] ∨ senioridades_selecionadas s = []
  ∨ contratos_selecionados s = [] ∨ tamanhos_selecionados s = [] →
  df_filtrado df s = [].
Proof.
  intros Hempty. unfold df_filtrado.
  induction df as [|r df IH]; [done|].
  rewrite filter_cons_False; [done|].
  unfold consulta. intros (Ha & Hs & Hc & Ht).
  destruct Hempty as [E|[E|[E|E]]]; rewrite E in *; by eapply not_elem_of_nil.
Qed.

Lemma df_filtrado_empty_dimension_witness :
  df_filtrado df_exemplo
    {| anos_selecionados := [2022; 2023]%Z; senioridades_selecionadas := ["senior"];
       contratos_selecionados := []; tamanhos_selecionados := ["M"] |} = [].
Proof.
  apply df_filtrado_empty_dimension. simpl. right. right. left. reflexivity.
Defined.

(** ** Sliders *)

Lemma slider_bounds min_value max_value value step handle :
  (min_value ≤ value ≤ max_value)%Z → (0 ≤ step)%Z →
  (min_value ≤ slider min_value max_value value step handle ≤ max_value)%Z.
Proof. intros Hv Hs. destruct handle as [k|]; simpl; [nia|lia]. Qed.

(** C9. In every session the Top-N count handed to the aggregation is an
    integer between 5 and 20 inclusive. *)
Theorem top_n_cargos_bounds (ui : sessao) : (5 ≤ top_n_cargos ui ≤ 20)%Z.
Proof. unfold top_n_cargos. apply slider_bounds; lia. Qed.

(** ** Country enrichment *)

(** C8, as stated, fails: for the unknown code XXX the abbreviation is XX,
    not the raw code. *)
Lemma obter_pais_info_unknown_not_raw :
  ¬ (∀ (countries_get : string → option country) (code : string),
       String.length code = 3%nat → countries_get code = None →
       obter_pais_info countries_get code = (code, code)).
Proof.
  intros H. specialize (H countries_exemplo "XXX" eq_refl eq_refl).
  vm_compute in H. discriminate H.
Qed.

(** C8, amended. For every 3-letter code the table does not hold, the lookup
    returns the raw code as display name and the first two characters of the
    code as abbreviation. *)
Theorem obter_pais_info_unknown (countries_get : string → option country)
    (code : string) :
  String.length code = 3%nat → countries_get code = None →
  ∃ a b c, code = String a (String b (String c ""))
    ∧ obter_pais_info countries_get code = (code, String a (String b "")).
Proof.
  intros Hlen Hnone. unfold obter_pais_info. rewrite Hnone.
  destruct code as [|a [|b [|c [|d code]]]]; try discriminate Hlen.
  by exists a, b, c.
Qed.

Lemma obter_pais_info_unknown_witness :
  ∃ a b c, "XXX" = String a (String b (String c ""))
    ∧ obter_pais_info countries_exemplo "XXX" = ("XXX", String a (String b "")).
Proof.
  apply (obter_pais_info_unknown countries_exemplo "XXX"); reflexivity.
Defined.

(** ** Stable sorting *)

Section estavel_props.
Context {A : Type} (le : A → A → bool).

Lemma inserir_Permutation x l : inserir le x l ≡ₚ x :: l.
  Proof.
    induction l as [|y l IH]; simpl; [done|].
    destruct (le x y); [done|].
    rewrite IH. apply Permutation_swap.
  Qed.

Lemma ordenar_Permutation l : ordenar le l ≡ₚ l.
  Proof.
    induction l as [|x l IH]; simpl; [done|].
    by rewrite inserir_Permutation, IH.
  Qed.

Lemma length_ordenar l : length (ordenar le l) = length l.
  Proof. by rewrite ordenar_Permutation. Qed.

Hypothesis le_total : ∀ a b, le a b = true ∨ le b a = true.
Hypothesis le_trans : ∀ a b c, le a b = true → le b c = true → le a c = true.
Variable T : relation A.

Lemma inserir_antes x l :
    StronglySorted (antes le T) l → Forall (T x) l →
    StronglySorted (antes le T) (inserir le x l).
  Proof.
    induction l as [|y l IH]; simpl; intros Hs HT.
    - repeat constructor.
    - apply StronglySorted_cons in Hs as [Hy Hs].
      apply Forall_cons in HT as [HTy HT].
      destruct (le x y) eqn:Hxy.
      + constructor; [by constructor|].
        constructor; [by split|].
        rewrite Forall_forall in Hy, HT. apply Forall_forall. intros z Hz.
        split; [|intros _; by apply HT].
        eapply le_trans; [exact Hxy|]. by destruct (Hy z Hz).
      + constructor; [by apply IH|].
        rewrite inserir_Permutation. constructor; [|done].
        split; [|congruence].
        destruct (le_total x y); congruence.
  Qed.

Lemma ordenar_antes l :
    StronglySorted T l → StronglySorted (antes le T) (ordenar le l).
  Proof.
    induction 1 as [|x l _ IH Hx]; simpl; [constructor|].
    apply inserir_antes; [done|]. by rewrite ordenar_Permutation.
  Qed.
End estavel_props.

Lemma ordenar_sorted {A} (le : A → A → bool) l :
  (∀ a b, le a b = true ∨ le b a = true) →
  (∀ a b c, le a b = true → le b c = true → le a c = true) →
  StronglySorted (λ a b, le a b = true) (ordenar le l).
Proof.
  intros Htot Htrans.
  assert (StronglySorted (λ _ _, True) l) as Hl.
  { induction l; constructor; [done|]. by apply Forall_forall. }
  apply (ordenar_antes le Htot Htrans _ l) in Hl.
  revert Hl. generalize (ordenar le l). induction 1; constructor; [done|].
  eapply Forall_impl; [eassumption|]. by intros ? [? _].
Qed.

(** ** Group-by *)

Section groupby_props.
Context `{EqDecision K} (sorted : list K → list K) (key : linha → K).
Hypothesis sorted_perm : ∀ l, sorted l ≡ₚ l.

Lemma fst_groupby_mean df :
    fst <$> groupby_mean sorted key df = sorted (unique (key <$> df)).
  Proof.
    unfold groupby_mean. rewrite <- list_fmap_compose.
    induction (sorted (unique (key <$> df))) as [|k l IH]; [done|].
    simpl. by f_equal.
  Qed.

Lemma elem_of_groupby_mean df k m :
    (k, m) ∈ groupby_mean sorted key df ↔
      k ∈ key <$> df ∧ m = mean (usd <$> grupo key k df).
  Proof.
    unfold groupby_mean. rewrite list_elem_of_fmap. split.
    - intros (k' & [= -> ->] & Hk). split; [|done].
      by rewrite sorted_perm, elem_of_unique in Hk.
    - intros [Hk ->]. exists k. split; [done|].
      by rewrite sorted_perm, elem_of_unique.
  Qed.

Lemma NoDup_groupby_mean df : NoDup (fst <$> groupby_mean sorted key df).
  Proof. rewrite fst_groupby_mean, sorted_perm. apply NoDup_unique. Qed.

  (** Every group of the result holds at least one row, so its mean is the
      mean of a non-empty column. *)
Lemma groupby_group_nonempty df k m :
    (k, m) ∈ groupby_mean sorted key df → grupo key k df ≠ [].
  Proof.
    rewrite elem_of_groupby_mean. intros [Hk _] Hnil.
    apply list_elem_of_fmap in Hk as (r & -> & Hr).
    assert (r ∈ grupo key (key r) df) as Hin
      by (unfold grupo; by rewrite list_elem_of_filter).
    rewrite Hnil in Hin. by apply not_elem_of_nil in Hin.
  Qed.
End groupby_props.

Lemma sorted_str_Permutation l : sorted_str l ≡ₚ l.
Proof. apply merge_sort_Permutation. Qed.

Lemma sorted_Z_Permutation l : sorted_Z l ≡ₚ l.
Proof. apply merge_sort_Permutation. Qed.

Lemma strict_le_ltb (a b : string) : String.le a b → a ≠ b → (a <? b)%string = true.
Proof.
  unfold String.le, String.leb, String.ltb. intros Hle Hne.
  destruct (a ?= b)%string eqn:Hc; [|done|done].
  by apply String.compare_eq_iff in Hc.
Qed.

Lemma ltb_asym (a b : string) : (a <? b)%string = true → (b <? a)%string = true → False.
Proof.
  unfold String.ltb. rewrite (String.compare_antisym a b).
  destruct (b ?= a)%string; simpl; congruence.
Qed.

Lemma StronglySorted_NoDup_strict {A} (R : relation A) l :
  StronglySorted R l → NoDup l → StronglySorted (λ a b, R a b ∧ a ≠ b) l.
Proof.
  induction 1 as [|x l _ IH Hx]; intros Hnd; [constructor|].
  apply NoDup_cons in Hnd as [Hnotin Hnd]. constructor; [by apply IH|].
  rewrite Forall_forall in Hx. apply Forall_forall. intros y Hy.
  split; [by apply Hx|]. by intros ->.
Qed.

(** The per-role means come out in strictly increasing alphabetical order
    of the role title. *)
Lemma salario_cargo_sorted dff :
  StronglySorted (λ a b, (fst a <? fst b)%string = true) (salario_cargo dff).
Proof.
  unfold salario_cargo, groupby_mean.
  apply StronglySorted_fmap with (R1 := λ a b, String.le a b ∧ a ≠ b).
  { intros a b [? ?]. simpl. by apply strict_le_ltb. }
  apply StronglySorted_NoDup_strict.
  - apply StronglySorted_merge_sort; apply _.
  - rewrite sorted_str_Permutation. apply NoDup_unique.
Qed.

(** ** Top-N by role *)

Lemma maior_ou_igual_total a b :
  maior_ou_igual a b = true ∨ maior_ou_igual b a = true.
Proof.
  unfold maior_ou_igual. rewrite !Qle_bool_iff.
  destruct (Qlt_le_dec (snd a) (snd b)); [right; by apply Qlt_le_weak|by left].
Qed.

Lemma maior_ou_igual_trans a b c :
  maior_ou_igual a b = true → maior_ou_igual b c = true → maior_ou_igual a c = true.
Proof.
  unfold maior_ou_igual. rewrite !Qle_bool_iff. intros ? ?. by eapply Qle_trans.
Qed.

Lemma menor_ou_igual_total a b :
  menor_ou_igual a b = true ∨ menor_ou_igual b a = true.
Proof. apply (maior_ou_igual_total b a). Qed.

Lemma menor_ou_igual_trans a b c :
  menor_ou_igual a b = true → menor_ou_igual b c = true → menor_ou_igual a c = true.
Proof. intros ? ?. by apply (maior_ou_igual_trans c b a). Qed.

(** [nlargest] is a prefix of the stable descending sort. *)
Lemma nlargest_prefix n rows :
  ∃ rest, ordenar maior_ou_igual rows = nlargest n rows ++ rest.
Proof.
  unfold nlargest. destruct (decide (n ≤ 0)%Z).
  - by eexists.
  - exists (drop (Z.to_nat n) (ordenar maior_ou_igual rows)).
    by rewrite take_drop.
Qed.

Lemma length_nlargest n rows :
  length (nlargest n rows) = (Z.to_nat n `min` length rows)%nat.
Proof.
  unfold nlargest. destruct (decide (n ≤ 0)%Z).
  - simpl. lia.
  - by rewrite length_take, length_ordenar.
Qed.

Lemma top_cargos_Permutation dff n :
  top_cargos dff n ≡ₚ nlargest n (salario_cargo dff).
Proof. apply ordenar_Permutation. Qed.

(** A selected row never has a smaller mean than a row left out, and on
    equal means it is the alphabetically earlier one. *)
Lemma nlargest_antes dff n a b :
  a ∈ nlargest n (salario_cargo dff) → b ∈ salario_cargo dff →
  b ∉ nlargest n (salario_cargo dff) →
  antes maior_ou_igual (λ a b, (fst a <? fst b)%string = true) a b.
Proof.
  intros Ha Hb Hnb.
  destruct (nlargest_prefix n (salario_cargo dff)) as [rest Hsplit].
  pose proof (ordenar_antes maior_ou_igual maior_ou_igual_total
    maior_ou_igual_trans _ _ (salario_cargo_sorted dff)) as Hs.
  rewrite Hsplit in Hs.
  eapply StronglySorted_app_1_elem_of; [exact Hs|exact Ha|].
  rewrite <- (ordenar_Permutation maior_ou_igual), Hsplit, elem_of_app in Hb.
  by destruct Hb.
Qed.

Lemma nlargest_subseteq n rows x : x ∈ nlargest n rows → x ∈ rows.
Proof.
  intros Hx. destruct (nlargest_prefix n rows) as [rest Hsplit].
  rewrite <- (ordenar_Permutation maior_ou_igual), Hsplit, elem_of_app. by left.
Qed.

Lemma NoDup_fst_nlargest dff n : NoDup (fst <$> nlargest n (salario_cargo dff)).
Proof.
  destruct (nlargest_prefix n (salario_cargo dff)) as [rest Hsplit].
  pose proof (NoDup_groupby_mean sorted_str cargo sorted_str_Permutation dff) as Hnd.
  fold (salario_cargo dff) in Hnd.
  rewrite <- (ordenar_Permutation maior_ou_igual), Hsplit, fmap_app in Hnd.
  by apply NoDup_app in Hnd as [? _].
Qed.

Lemma elem_of_salario_cargo dff c :
  c ∈ cargo <$> dff → (c, mean (usd <$> grupo cargo c dff)) ∈ salario_cargo dff.
Proof.
  intros Hc. unfold salario_cargo.
  by rewrite (elem_of_groupby_mean _ _ sorted_str_Permutation).
Qed.

Lemma not_selected dff n c :
  c ∉ fst <$> top_cargos dff n →
  (c, mean (usd <$> grupo cargo c dff)) ∉ nlargest n (salario_cargo dff).
Proof.
  intros Hc Hin. apply Hc. rewrite top_cargos_Permutation.
  apply list_elem_of_fmap. by eexists (_, _).
Qed.

Lemma linhas_com_filter (p : linha → bool) (df : DataFrame) :
  linhas_com p df = filter (λ r, p r = true) df.
Proof.
  induction df as [|r df IH]; [done|].
  simpl. rewrite filter_cons, IH.
  destruct (p r); [by rewrite decide_True|by rewrite decide_False].
Qed.

Lemma linhas_do_cargo_grupo (c : string) (dff : DataFrame) :
  linhas_do_cargo c dff = grupo cargo c dff.
Proof.
  unfold linhas_do_cargo, grupo. rewrite linhas_com_filter.
  apply list_filter_iff. intros r. apply String.eqb_eq.
Qed.

Lemma linhas_do_ano_grupo (a : Z) (ds : DataFrame) :
  linhas_do_ano a ds = grupo ano a ds.
Proof.
  unfold linhas_do_ano, grupo. rewrite linhas_com_filter.
  apply list_filter_iff. intros r. apply Z.eqb_eq.
Qed.

Lemma linhas_do_ano_pais_grupo (a : Z) (p : string) (ds : DataFrame) :
  linhas_do_ano_pais a p ds = grupo ano_pais (a, p) ds.
Proof.
  unfold linhas_do_ano_pais, grupo, ano_pais. rewrite linhas_com_filter.
  apply list_filter_iff. intros r.
  rewrite andb_true_iff, Z.eqb_eq, String.eqb_eq. split.
  - by intros [-> ->].
  - by intros [= -> ->].
Qed.

Lemma grupo_nonempty `{EqDecision K} (key : linha → K) (df : DataFrame) k :
  k ∈ key <$> df → grupo key k df ≠ [].
Proof.
  intros (r & -> & Hr)%list_elem_of_fmap Hnil.
  assert (r ∈ grupo key (key r) df) as Hin
    by (unfold grupo; by rewrite list_elem_of_filter).
  rewrite Hnil in Hin. by apply not_elem_of_nil in Hin.
Qed.

(** The mean of a column with a single entry is that entry. *)
Lemma mean_singleton (x : Q) : (mean [x] == x)%Q.
Proof. unfold mean. simpl. field. Qed.


(** Membership in a list given by its elements. *)
Ltac elem_concreto := vm_compute; repeat (first [by left | right]).

(** The Top-5 of a frame with six roles of different means. *)
Example top_cargos_df_cargos :
  fst <$> top_cargos df_cargos 5 = ["D"; "B"; "A"; "C"; "E"]
  ∧ Forall2 Qeq (snd <$> top_cargos df_cargos 5) [70; 150; 200; 500; 1000]%Q.
Proof.
  split; [vm_compute; reflexivity|].
  vm_compute. repeat constructor.
Qed.


(** What the script selects when six roles tie and five are asked for. *)
Example top_cargos_df_empate :
  fst <$> top_cargos df_empate 5 = ["A"; "B"; "C"; "D"; "E"]
  ∧ unique (cargo <$> df_empate) = ["F"; "E"; "D"; "C"; "B"; "A"].
Proof. split; vm_compute; reflexivity. Qed.

(** C7, as stated, fails: with six roles of equal mean met in the order
    F, E, D, C, B, A and N = 5, role A is selected and role F, met first, is
    not. *)
Lemma top_cargos_ties_not_encounter_order : ¬ desempate_por_encontro df_empate 5.
Proof.
  intros H. specialize (H "F" "A").
  assert ("F" ∈ fst <$> top_cargos df_empate 5) as Hin.
  { apply H.
    - elem_concreto.
    - elem_concreto.
    - vm_compute. reflexivity.
    - vm_compute. lia.
    - elem_concreto. }
  apply list_elem_of_In in Hin. vm_compute in Hin. intuition discriminate.
Qed.

(** C7, amended. In Top-N by role, when two role groups have equal mean at
    the selection boundary, the tie is broken by the alphabetical order of
    the role titles, which is the order of the grouped frame: the role whose
    title sorts first is selected whenever the other one is. *)
Theorem top_cargos_ties_alphabetical (dff : DataFrame) (n : Z) (c1 c2 : string) :
  c1 ∈ cargo <$> dff → c2 ∈ cargo <$> dff →
  (mean (usd <$> grupo cargo c1 dff) == mean (usd <$> grupo cargo c2 dff))%Q →
  (c1 <? c2)%string = true →
  c2 ∈ fst <$> top_cargos dff n → c1 ∈ fst <$> top_cargos dff n.
Proof.
  intros Hc1 Hc2 Heq Hlt Hsel.
  destruct (decide (c1 ∈ fst <$> top_cargos dff n)) as [|Hnot]; [done|exfalso].
  rewrite top_cargos_Permutation in Hsel.
  apply list_elem_of_fmap in Hsel as ([c m] & -> & Hin). simpl in *.
  pose proof (nlargest_subseteq _ _ _ Hin) as Hm.
  apply (elem_of_groupby_mean _ _ sorted_str_Permutation) in Hm as [_ ->].
  destruct (nlargest_antes dff n _ _ Hin (elem_of_salario_cargo dff c1 Hc1)
    (not_selected dff n c1 Hnot)) as [_ Htie].
  simpl in Htie. eapply ltb_asym; [exact Hlt|]. apply Htie.
  unfold maior_ou_igual. simpl. apply Qle_bool_iff. rewrite Heq. apply Qle_refl.
Qed.

Lemma top_cargos_ties_alphabetical_witness :
  "A" ∈ fst <$> top_cargos df_empate 5.
Proof.
  apply (top_cargos_ties_alphabetical df_empate 5 "A" "B").
  - elem_concreto.
  - elem_concreto.
  - vm_compute. reflexivity.
  - vm_compute. reflexivity.
  - elem_concreto.
Defined.

(** ** The page *)

Lemma vazio_false (df : DataFrame) : df ≠ [] → vazio df = false.
Proof. by destruct df. Qed.

Lemma value_counts_nonempty col : col ≠ [] → value_counts col ≠ [].
Proof.
  intros Hcol Hvc. apply (f_equal length) in Hvc.
  unfold value_counts in Hvc. rewrite length_ordenar, length_fmap in Hvc.
  by destruct col.
Qed.

Lemma idxmax_nonempty vc : vc ≠ [] → ∃ c, idxmax vc = inr c.
Proof. destruct vc; [done|]. by eexists. Qed.

Lemma metricas_nonempty (dff : DataFrame) :
  dff ≠ [] →
  ∃ c, idxmax (value_counts (cargo <$> dff)) = inr c
    ∧ metricas dff = inr (v_num (mean (usd <$> dff)), v_num (maximo (usd <$> dff)),
                          v_int (Z.of_nat (length dff)), v_str c).
Proof.
  intros Hne.
  destruct (idxmax_nonempty (value_counts (cargo <$> dff))) as [c Hc].
  { apply value_counts_nonempty. by destruct dff. }
  exists c. split; [done|].
  unfold metricas. by rewrite (vazio_false _ Hne), Hc.
Qed.

Lemma graficos_gerais_nonempty (dff : DataFrame) top_n bins p :
  dff ≠ [] →
  graficos_gerais dff top_n bins p =
    (inr tt,
     p ++ [ subheader "Top cargos";
            plotly_chart (fig_top (top_cargos dff top_n) top_n);
            markdown "---";
            subheader "Distribuição de salários";
            plotly_chart (fig_hist (usd <$> dff) bins);
            markdown "---";
            plotly_chart (fig_remoto (value_counts (remoto <$> dff))) ]).
Proof.
  intros Hne. unfold graficos_gerais. rewrite (vazio_false _ Hne). simpl.
  unfold mbind, St_bind, emit. by rewrite <- !app_assoc.
Qed.

(** C4. Whenever the filtered frame is empty, the four metrics take the
    defaults 0, 0, 0 and the empty string; the script runs to its end without
    an exception; the block of general charts and the Data Scientist section
    each leave the page as it was; and the finished page shows exactly those
    four metrics and not a single chart. *)
Theorem app_empty_view (countries_get : string → option country)
    (df : DataFrame) (ui : sessao) :
  df_filtrado df (selecao_de df ui) = [] →
  metricas (df_filtrado df (selecao_de df ui))
    = inr (v_int 0, v_int 0, v_int 0, v_str "")
  ∧ (∀ p, graficos_gerais (df_filtrado df (selecao_de df ui))
            (top_n_cargos ui) (hist_bins ui) p = (inr tt, p))
  ∧ (∀ p, secao_cientistas countries_get (df_filtrado df (selecao_de df ui)) p
            = (inr tt, p))
  ∧ ∃ page, app countries_get df ui [] = (inr tt, page)
      ∧ filter e_metrica page
          = [ metric "Salário médio" (v_int 0);
              metric "Salário máximo" (v_int 0);
              metric "Total de registros" (v_int 0);
              metric "Cargo mais frequente" (v_str "") ]
      ∧ filter e_grafico page = [].
Proof.
  intros Hempty. unfold app. rewrite Hempty.
  repeat split; try done. eexists. split; [reflexivity|]. by split.
Qed.

Lemma app_empty_view_witness :
  ∃ page,
    app countries_exemplo df_exemplo
      {| w_anos := Some []; w_senioridades := None; w_contratos := None;
         w_tamanhos := None; w_top_n := None; w_hist_bins := None |} []
      = (inr tt, page)
    ∧ filter e_grafico page = [].
Proof.
  destruct (app_empty_view countries_exemplo df_exemplo
    {| w_anos := Some []; w_senioridades := None; w_contratos := None;
       w_tamanhos := None; w_top_n := None; w_hist_bins := None |})
    as (_ & _ & _ & page & Hrun & _ & Hcharts); [reflexivity|].
  exists page. by split.
Defined.

(** C10, as stated, fails: on a non-empty filtered frame without any Data
    Scientist row the section still writes its subheader to the page. *)
Lemma secao_cientistas_not_silent :
  ¬ (∀ (countries_get : string → option country) (dff : DataFrame) p,
       dff ≠ [] → df_ds dff = [] →
       secao_cientistas countries_get dff p = (inr tt, p)).
Proof.
  intros H.
  specialize (H countries_exemplo df_sem_cientistas [] ltac:(discriminate) eq_refl).
  vm_compute in H. discriminate H.
Qed.

(** C10, amended. Whenever the filtered frame is non-empty but holds no Data
    Scientist row, the Data Scientist section writes only its subheader and
    no chart, and raises no exception, while the metrics, the three general
    charts and the table (first 1000 rows) are rendered from the filtered
    frame: the script ends normally with exactly the page below. *)
Theorem app_no_data_scientist (countries_get : string → option country)
    (df : DataFrame) (ui : sessao) :
  let dff := df_filtrado df (selecao_de df ui) in
  dff ≠ [] → df_ds dff = [] →
  (∀ p, secao_cientistas countries_get dff p
          = (inr tt, p ++ [subheader "Cientistas de Dados"]))
  ∧ ∃ c, idxmax (value_counts (cargo <$> dff)) = inr c
    ∧ app countries_get df ui [] =
        (inr tt,
         [ title titulo_pagina;
           markdown texto_introducao;
           subheader "Métricas gerais (Salário anual em USD)";
           metric "Salário médio" (v_num (mean (usd <$> dff)));
           metric "Salário máximo" (v_num (maximo (usd <$> dff)));
           metric "Total de registros" (v_int (Z.of_nat (length dff)));
           metric "Cargo mais frequente" (v_str c);
           markdown "---";
           subheader "Top cargos";
           plotly_chart (fig_top (top_cargos dff (top_n_cargos ui)) (top_n_cargos ui));
           markdown "---";
           subheader "Distribuição de salários";
           plotly_chart (fig_hist (usd <$> dff) (hist_bins ui));
           markdown "---";
           plotly_chart (fig_remoto (value_counts (remoto <$> dff)));
           subheader "Cientistas de Dados";
           subheader "Dados Detalhados";
           dataframe (take 1000 dff) ]).
Proof.
  intros dff Hne Hds.
  assert (∀ p, secao_cientistas countries_get dff p
               = (inr tt, p ++ [subheader "Cientistas de Dados"])) as Hsec.
  { intros p. unfold secao_cientistas.
    rewrite (vazio_false _ Hne), Hds. reflexivity. }
  split; [done|].
  destruct (metricas_nonempty dff Hne) as (c & Hc & Hmet).
  exists c. split; [done|].
  unfold app. fold dff.
  cbv [mbind St_bind lift emit]. rewrite Hmet.
  rewrite (graficos_gerais_nonempty _ _ _ _ Hne), Hsec.
  reflexivity.
Qed.

Lemma app_no_data_scientist_witness :
  secao_cientistas countries_exemplo df_sem_cientistas []
    = (inr tt, [subheader "Cientistas de Dados"]).
Proof.
  destruct (app_no_data_scientist countries_exemplo df_sem_cientistas sessao_inicial)
    as [Hsec _]; [discriminate|reflexivity|].
  exact (Hsec []).
Defined.

(** ** Sums of rationals *)

Lemma soma_cons x l : soma (x :: l) = (x + soma l)%Q.
Proof. reflexivity. Qed.

Lemma soma_Permutation l l' : l ≡ₚ l' → (soma l == soma l')%Q.
Proof.
  induction 1 as [|x l l' _ IH|x y l|l l' l'' _ IH1 _ IH2]; simpl.
  - reflexivity.
  - by rewrite IH.
  - ring.
  - by rewrite IH1.
Qed.

Lemma soma_ext {A} (f g : A → Q) l :
  (∀ x, x ∈ l → (f x == g x)%Q) → (soma (f <$> l) == soma (g <$> l))%Q.
Proof.
  induction l as [|x l IH]; intros Hfg; simpl; [reflexivity|].
  rewrite (Hfg x) by left. rewrite IH; [reflexivity|].
  intros y Hy. apply Hfg. by right.
Qed.

Lemma soma_plus {A} (f g : A → Q) l :
  (soma ((λ x, f x + g x) <$> l) == soma (f <$> l) + soma (g <$> l))%Q.
Proof.
  induction l as [|x l IH]; [reflexivity|].
  rewrite !fmap_cons, !soma_cons, IH. ring.
Qed.

Lemma soma_linear {A} (f g : A → Q) (m : Q) l :
  (soma ((λ x, f x - m * g x) <$> l) == soma (f <$> l) - m * soma (g <$> l))%Q.
Proof.
  induction l as [|x l IH]; [change (0 == 0 - m * 0)%Q; ring|].
  rewrite !fmap_cons, !soma_cons, IH. ring.
Qed.

Lemma soma_ones {A} (l : list A) :
  (soma ((λ _, 1) <$> l) == inject_Z (Z.of_nat (length l)))%Q.
Proof.
  induction l as [|x l IH]; [reflexivity|].
  simpl length. rewrite Nat2Z.inj_succ, <- Z.add_1_l, inject_Z_plus.
  rewrite fmap_cons, soma_cons, IH. reflexivity.
Qed.

Lemma soma_indicator `{EqDecision K} (k0 : K) (c : Q) ks :
  NoDup ks →
  (soma ((λ k, if decide (k0 = k) then c else 0) <$> ks)
   == if decide (k0 ∈ ks) then c else 0)%Q.
Proof.
  induction 1 as [|k ks Hnotin _ IH]; [reflexivity|].
  rewrite fmap_cons, soma_cons, IH.
  destruct (decide (k0 = k)) as [Heq|Hne], (decide (k0 ∈ ks)) as [Hin|Hnin],
    (decide (k0 ∈ k :: ks)) as [Hin'|Hnin'];
    try ring; exfalso; rewrite ?elem_of_cons in *; subst; tauto.
Qed.

Lemma mean_times_length l :
  l ≠ [] → (mean l * inject_Z (Z.of_nat (length l)) == soma l)%Q.
Proof.
  intros Hne. unfold mean. field.
  destruct l as [|x l]; [done|].
  intros H. simpl length in H. rewrite Nat2Z.inj_succ in H.
  unfold Qeq in H. simpl in H. lia.
Qed.

(** Splitting a frame into its groups loses nothing: the per-group sums of
    any column add up to the sum over the frame. *)
Lemma soma_grupos `{EqDecision K} (key : linha → K) (f : linha → Q)
    (ks : list K) (df : DataFrame) :
  NoDup ks → (∀ r, r ∈ df → key r ∈ ks) →
  (soma ((λ k, soma (f <$> grupo key k df)) <$> ks) == soma (f <$> df))%Q.
Proof.
  intros Hnd. induction df as [|r df IH]; intros Hin.
  - clear Hnd Hin. induction ks as [|k ks IHk]; [reflexivity|].
    rewrite fmap_cons, soma_cons, IHk. vm_compute. reflexivity.
  - rewrite (soma_ext _
      (λ k, (if decide (key r = k) then f r else 0)
            + soma (f <$> grupo key k df))%Q).
    + rewrite soma_plus, (soma_indicator (key r) (f r) ks Hnd), IH.
      * rewrite decide_True by (apply Hin; left). reflexivity.
      * intros r' Hr'. apply Hin. by right.
    + intros k _. unfold grupo. rewrite filter_cons.
      destruct (decide (key r = k)); [reflexivity|ring].
Qed.

(** ** The country-year aggregate *)

Lemma apply_rows_pure {A B} (f : A → exn + B) (h : A → B) l :
  (∀ x, x ∈ l → f x = inr (h x)) → apply_rows f l = inr (h <$> l).
Proof.
  induction l as [|x l IH]; intros Hf; [done|].
  simpl. rewrite (Hf x) by left. rewrite IH; [done|].
  intros y Hy. apply Hf. by right.
Qed.

Lemma filter_fmap {A B} (f : A → B) (P : B → Prop) `{∀ y, Decision (P y)}
    (l : list A) :
  filter P (f <$> l) = f <$> filter (λ x, P (f x)) l.
Proof.
  induction l as [|x l IH]; [done|].
  rewrite fmap_cons, !filter_cons, IH. by destruct (decide (P (f x))).
Qed.

(** The dict of yearly means answers for every year present in the frame, so
    the lookup in [cor] never raises. *)
Lemma media_global_lookup (ds : DataFrame) a :
  a ∈ ano <$> ds → media_global ds !! a = Some (mean (usd <$> grupo ano a ds)).
Proof.
  intros Ha. unfold media_global. apply elem_of_list_to_map_1.
  - apply NoDup_groupby_mean, sorted_Z_Permutation.
  - by apply elem_of_groupby_mean; [apply sorted_Z_Permutation|].
Qed.

Lemma sorted_par_Permutation l : sorted_par l ≡ₚ l.
Proof. apply merge_sort_Permutation. Qed.

Lemma media_ano_pais_Permutation (ds : DataFrame) :
  media_ano_pais ds ≡ₚ groupby_mean sorted_par ano_pais ds.
Proof. apply ordenar_Permutation. Qed.

Lemma fst_media_ano_pais (ds : DataFrame) :
  fst <$> media_ano_pais ds ≡ₚ unique (ano_pais <$> ds).
Proof.
  by rewrite media_ano_pais_Permutation, fst_groupby_mean, sorted_par_Permutation.
Qed.

Lemma ano_of_ano_pais (ds : DataFrame) (k : Z * string) : k ∈ ano_pais <$> ds → fst k ∈ ano <$> ds.
Proof.
  intros (r & -> & Hr)%list_elem_of_fmap. simpl.
  by apply (list_elem_of_fmap_2 ano).
Qed.

Lemma df_anim_esperada countries_get (ds : DataFrame) :
  df_anim countries_get ds
    = inr (linha_esperada countries_get ds <$> (fst <$> media_ano_pais ds)).
Proof.
  unfold df_anim. rewrite <- list_fmap_compose. apply apply_rows_pure.
  intros [k m] Hg. rewrite media_ano_pais_Permutation in Hg.
  apply (elem_of_groupby_mean _ _ sorted_par_Permutation) in Hg as [Hk ->].
  unfold linha_de_anim, getitem. simpl.
  by rewrite (media_global_lookup ds (fst k) (ano_of_ano_pais ds k Hk)).
Qed.

Lemma grupo_ano_pais_ano (ds : DataFrame) (k : Z * string) :
  grupo ano_pais k (grupo ano (fst k) ds) = grupo ano_pais k ds.
Proof.
  unfold grupo. rewrite list_filter_filter. apply list_filter_iff.
  intros r. unfold ano_pais. split; [tauto|]. by intros <-.
Qed.

(** Within one year, the deviations weighted by the group sizes cancel. *)
Lemma desvios_ano (ds : DataFrame) (a : Z) :
  (soma ((λ k, (mean (usd <$> grupo ano_pais k ds)
                - mean (usd <$> grupo ano (fst k) ds))
               * inject_Z (Z.of_nat (length (grupo ano_pais k ds))))
         <$> filter (λ k, fst k = a) (unique (ano_pais <$> ds))) == 0)%Q.
Proof.
  set (ks := filter (λ k, fst k = a) (unique (ano_pais <$> ds))).
  set (dsa := grupo ano a ds).
  assert (NoDup ks) as Hnd by apply NoDup_filter, NoDup_unique.
  assert (∀ r, r ∈ dsa → ano_pais r ∈ ks) as Hcover.
  { intros r [Hr Hin]%list_elem_of_filter. apply list_elem_of_filter.
    split; [done|]. apply elem_of_unique. by apply list_elem_of_fmap_2. }
  rewrite (soma_ext _
    (λ k, soma (usd <$> grupo ano_pais k dsa)
          - mean (usd <$> dsa) * soma ((λ _, 1) <$> grupo ano_pais k dsa))%Q).
  - rewrite soma_linear, !soma_grupos, soma_ones by done.
    destruct (decide (dsa = [])) as [->|Hne]; [vm_compute; reflexivity|].
    rewrite <- (mean_times_length (usd <$> dsa)), length_fmap; [ring|].
    by destruct dsa.
  - intros k [Hk Hin]%list_elem_of_filter. subst a.
    rewrite elem_of_unique in Hin. unfold dsa. rewrite grupo_ano_pais_ano.
    rewrite soma_ones, <- (mean_times_length (usd <$> grupo ano_pais k ds)).
    + rewrite length_fmap. ring.
    + apply list_elem_of_fmap in Hin as (r & -> & Hr).
      assert (r ∈ grupo ano_pais (ano_pais r) ds) as Hin
        by (unfold grupo; by rewrite list_elem_of_filter).
      intros Hnil. apply fmap_nil_inv in Hnil. rewrite Hnil in Hin.
      by apply not_elem_of_nil in Hin.
Qed.

Global Instance soma_Proper : Proper ((≡ₚ) ==> Qeq) soma.
Proof. intros l l'. apply soma_Permutation. Qed.

Lemma chave_linha_esperada countries_get (ds : DataFrame) (ks : list (Z * string)) :
  (λ row, (a_ano row, a_residencia_iso3 row))
    <$> (linha_esperada countries_get ds <$> ks) = ks.
Proof.
  rewrite <- list_fmap_compose. induction ks as [|[a p] ks IH]; [done|].
  rewrite fmap_cons, IH. reflexivity.
Qed.


(** The numbers of that frame: the yearly mean rounds 5/3 upwards, the two
    deviations are exact differences from it, and their weighted sum is one
    unit in the last place of 1, below zero. *)
Example df_anim_f_ds_122 :
  media_global_f ds_122 !! 2023%Z = Some (0x1.aaaaaaaaaaaabp+0)%float
  ∧ df_anim_f ds_122
    = inr [ {| af_ano := 2023; af_residencia_iso3 := "USA"; af_usd := 2%float;
               af_cor := (0x1.5555555555554p-2)%float |};
            {| af_ano := 2023; af_residencia_iso3 := "BRA"; af_usd := 1%float;
               af_cor := (-0x1.5555555555556p-1)%float |} ]
  ∧ ∀ rows, df_anim_f ds_122 = inr rows →
      soma_desvios_f ds_122 rows 2023 = (-0x1p-52)%float.
Proof.
  split; [vm_compute; reflexivity|]. split; [vm_compute; reflexivity|].
  intros rows. vm_compute. intros [= <-]. vm_compute. reflexivity.
Qed.



(** The worked example: with the selection restricted to 2023, the only
    role has mean 60000, and so has the year 2023 in the dict of yearly
    means. *)
Example exemplo_2023 :
  let dff := df_filtrado df_exemplo
               {| anos_selecionados := [2023]%Z;
                  senioridades_selecionadas := ["senior"];
                  contratos_selecionados := ["integral"];
                  tamanhos_selecionados := ["M"] |} in
  top_cargos dff 1 = [("Data Scientist", 120000 # 2)]
  ∧ media_global (df_ds dff) !! 2023%Z = Some (120000 # 2).
Proof. split; vm_compute; reflexivity. Qed.

(** * Further properties of the script *)

(** ** Sidebar and filter *)

Lemma sorted_strict_Z l : NoDup l → StronglySorted Z.lt (sorted_Z l).
Proof.
  intros Hnd. unfold sorted_Z.
  assert (StronglySorted (λ a b, (a ≤ b)%Z ∧ a ≠ b) (merge_sort Z.le l)) as Hs.
  { apply StronglySorted_NoDup_strict.
    - apply StronglySorted_merge_sort; apply _.
    - by rewrite merge_sort_Permutation. }
  revert Hs. generalize (merge_sort Z.le l).
  induction 1 as [|x k _ IH Hx]; constructor; [done|].
  eapply Forall_impl; [exact Hx|]. intros y [? ?]. simpl in *. lia.
Qed.

Lemma sorted_strict_str l :
  NoDup l → StronglySorted (λ a b, (a <? b)%string = true) (sorted_str l).
Proof.
  intros Hnd. unfold sorted_str.
  assert (StronglySorted (λ a b, String.le a b ∧ a ≠ b) (merge_sort String.le l)) as Hs.
  { apply StronglySorted_NoDup_strict.
    - apply StronglySorted_merge_sort; apply _.
    - by rewrite merge_sort_Permutation. }
  revert Hs. generalize (merge_sort String.le l).
  induction 1 as [|x k _ IH Hx]; constructor; [done|].
  eapply Forall_impl; [exact Hx|]. intros y [? ?]. by apply strict_le_ltb.
Qed.

(** X2. The options offered by the four multiselects are exactly the values
    observed in their columns, each listed once, in strictly increasing
    order (numeric for the year, lexicographic for the three others). *)
Theorem disponiveis_sorted (df : DataFrame) :
  (StronglySorted Z.lt (anos_disponiveis df)
   ∧ ∀ x, x ∈ anos_disponiveis df ↔ x ∈ ano <$> df)
  ∧ (StronglySorted (λ a b, (a <? b)%string = true) (senioridades_disponiveis df)
     ∧ ∀ x, x ∈ senioridades_disponiveis df ↔ x ∈ senioridade <$> df)
  ∧ (StronglySorted (λ a b, (a <? b)%string = true) (contratos_disponiveis df)
     ∧ ∀ x, x ∈ contratos_disponiveis df ↔ x ∈ contrato <$> df)
  ∧ (StronglySorted (λ a b, (a <? b)%string = true) (tamanhos_disponiveis df)
     ∧ ∀ x, x ∈ tamanhos_disponiveis df ↔ x ∈ tamanho_empresa <$> df).
Proof.
  repeat split;
    try apply sorted_strict_Z; try apply sorted_strict_str;
    try apply NoDup_unique;
    try apply elem_of_anos_disponiveis;
    try apply elem_of_senioridades_disponiveis;
    try apply elem_of_contratos_disponiveis;
    try apply elem_of_tamanhos_disponiveis.
Qed.

(** X3. A session in which none of the four multiselects was touched shows
    the whole frame: the filter returns the loaded rows unchanged. *)
Theorem df_filtrado_untouched (df : DataFrame) (ui : sessao) :
  w_anos ui = None → w_senioridades ui = None →
  w_contratos ui = None → w_tamanhos ui = None →
  df_filtrado df (selecao_de df ui) = df.
Proof.
  intros Ha Hs Hc Ht. apply filter_all. intros r Hr.
  unfold consulta, selecao_de. simpl. rewrite Ha, Hs, Hc, Ht. simpl.
  rewrite elem_of_anos_disponiveis, elem_of_senioridades_disponiveis,
    elem_of_contratos_disponiveis, elem_of_tamanhos_disponiveis.
  repeat split; by apply list_elem_of_fmap_2.
Qed.

Lemma df_filtrado_untouched_witness :
  df_filtrado df_exemplo (selecao_de df_exemplo sessao_inicial) = df_exemplo.
Proof.
  apply (df_filtrado_untouched df_exemplo sessao_inicial); reflexivity.
Defined.

(** X4. Narrowing a selection can be done on the filtered frame: when every
    list of [s'] is contained in the corresponding list of [s], filtering
    the view of [s] by [s'] gives the view of [s']. *)
Theorem df_filtrado_refine (df : DataFrame) (s s' : selecao) :
  anos_selecionados s' ⊆ anos_selecionados s →
  senioridades_selecionadas s' ⊆ senioridades_selecionadas s →
  contratos_selecionados s' ⊆ contratos_selecionados s →
  tamanhos_selecionados s' ⊆ tamanhos_selecionados s →
  df_filtrado (df_filtrado df s) s' = df_filtrado df s'.
Proof.
  intros Ha Hs Hc Ht. unfold df_filtrado.
  rewrite list_filter_filter. apply list_filter_iff.
  intros r. unfold consulta. split; [tauto|].
  intros (? & ? & ? & ?). repeat split; auto.
Qed.

Lemma df_filtrado_refine_witness :
  df_filtrado (df_filtrado df_exemplo (selecao_padrao df_exemplo))
      (selecao_de df_exemplo sessao_2023)
  = df_filtrado df_exemplo (selecao_de df_exemplo sessao_2023).
Proof.
  apply (df_filtrado_refine df_exemplo (selecao_padrao df_exemplo)
           (selecao_de df_exemplo sessao_2023));
    refine (bool_decide_unpack _ _); vm_compute; exact I.
Defined.

(** X5. Only the observed values of a selection matter: two selections that
    agree, column by column, on every value occurring in the frame give the
    same filtered frame. *)
Theorem df_filtrado_observed_only (df : DataFrame) (s s' : selecao) :
  (∀ r, r ∈ df →
     (ano r ∈ anos_selecionados s ↔ ano r ∈ anos_selecionados s')
     ∧ (senioridade r ∈ senioridades_selecionadas s
        ↔ senioridade r ∈ senioridades_selecionadas s')
     ∧ (contrato r ∈ contratos_selecionados s
        ↔ contrato r ∈ contratos_selecionados s')
     ∧ (tamanho_empresa r ∈ tamanhos_selecionados s
        ↔ tamanho_empresa r ∈ tamanhos_selecionados s')) →
  df_filtrado df s = df_filtrado df s'.
Proof.
  intros Hagree. unfold df_filtrado.
  induction df as [|r df IH]; [done|].
  rewrite !filter_cons, IH by (intros r' Hr'; apply Hagree; by right).
  destruct (Hagree r) as (Ha & Hs & Hc & Ht); [left|].
  destruct (decide (consulta s r)) as [H|H], (decide (consulta s' r)) as [H'|H'];
    try done; exfalso; unfold consulta in *; tauto.
Qed.

Lemma df_filtrado_observed_only_witness :
  df_filtrado df_exemplo selecao_2023_1999 = df_filtrado df_exemplo selecao_2023.
Proof.
  apply (df_filtrado_observed_only df_exemplo selecao_2023_1999 selecao_2023).
  intros r Hr. apply list_elem_of_In in Hr. vm_compute in Hr.
  destruct Hr as [<-|[<-|[<-|[<-|[]]]]];
    (repeat split; intros H; apply list_elem_of_In; apply list_elem_of_In in H;
     vm_compute in H |- *; intuition congruence).
Defined.

(** ** Summary metrics *)

Lemma Qmax_cases x y : Qmax x y = x ∨ Qmax x y = y.
Proof.
  unfold Qmax, GenericMinMax.gmax. destruct (x ?= y)%Q; auto.
Qed.

Lemma foldl_Qmax_spec l x :
  foldl Qmax x l ∈ x :: l ∧ ∀ y, y ∈ x :: l → (y <= foldl Qmax x l)%Q.
Proof.
  revert x. induction l as [|z l IH]; intros x; simpl.
  - split; [left|]. intros y ->%list_elem_of_singleton. apply Qle_refl.
  - destruct (IH (Qmax x z)) as [Hin Hub]. split.
    + apply elem_of_cons in Hin as [->|Hin]; [|by do 2 right].
      destruct (Qmax_cases x z) as [->| ->]; [left|right; left].
    + assert (Qmax x z <= foldl Qmax (Qmax x z) l)%Q as Hm by (apply Hub; left).
      intros y [->|[->|Hy]%elem_of_cons]%elem_of_cons.
      * eapply Qle_trans; [apply Q.le_max_l|exact Hm].
      * eapply Qle_trans; [apply Q.le_max_r|exact Hm].
      * apply Hub. by right.
Qed.

Lemma maximo_in_ub l :
  l ≠ [] → maximo l ∈ l ∧ ∀ x, x ∈ l → (x <= maximo l)%Q.
Proof. destruct l as [|x l]; [done|]. intros _. apply foldl_Qmax_spec. Qed.

(** X6. On a non-empty filtered frame the maximum-salary metric is the
    salary of some row, and no row has a greater salary. *)
Theorem maximo_spec (dff : DataFrame) :
  dff ≠ [] →
  maximo (usd <$> dff) ∈ usd <$> dff
  ∧ ∀ r, r ∈ dff → (usd r <= maximo (usd <$> dff))%Q.
Proof.
  intros Hne. destruct (maximo_in_ub (usd <$> dff)) as [Hin Hub].
  { by destruct dff. }
  split; [exact Hin|].
  intros r Hr. apply Hub. by apply (list_elem_of_fmap_2 usd) in Hr.
Qed.

Lemma maximo_spec_witness :
  maximo (usd <$> df_exemplo) ∈ usd <$> df_exemplo.
Proof.
  destruct (maximo_spec df_exemplo) as [Hin _]; [discriminate|exact Hin].
Defined.

(** ** Frequency tables *)

Lemma idxmax_desde_spec best l :
  ∃ b, b ∈ best :: l ∧ idxmax_desde best l = fst b
    ∧ ∀ x, x ∈ best :: l → (snd x ≤ snd b)%nat.
Proof.
  revert best. induction l as [|x l IH]; intros best; simpl.
  - exists best. split; [left|]. split; [done|].
    by intros y ->%list_elem_of_singleton.
  - destruct (IH (if (snd best <? snd x)%nat then x else best))
      as (b & Hb & Hres & Hmax).
    exists b. split; [|split; [done|]].
    + apply elem_of_cons in Hb as [->|Hb]; [|by do 2 right].
      destruct (snd best <? snd x)%nat; [right; left|left].
    + assert (snd best ≤ snd b ∧ snd x ≤ snd b)%nat as [? ?].
      { specialize (Hmax _ ltac:(left)).
        destruct (snd best <? snd x)%nat eqn:Hlt.
        - apply Nat.ltb_lt in Hlt. lia.
        - apply Nat.ltb_ge in Hlt. lia. }
      intros y [->|[->|Hy]%elem_of_cons]%elem_of_cons; [done|done|].
      apply Hmax. by right.
Qed.

Lemma elem_of_value_counts col k n :
  (k, n) ∈ value_counts col ↔ k ∈ col ∧ n = length (filter (λ y, y = k) col).
Proof.
  unfold value_counts. rewrite ordenar_Permutation, list_elem_of_fmap. split.
  - intros (k' & [= -> ->] & Hk). by rewrite elem_of_unique in Hk.
  - intros [Hk ->]. exists k. by rewrite elem_of_unique.
Qed.

Lemma contagem_coluna (dff : DataFrame) c :
  length (filter (λ y, y = c) (cargo <$> dff)) = length (grupo cargo c dff).
Proof. unfold grupo. by rewrite filter_fmap, length_fmap. Qed.

(** X8. On a non-empty filtered frame the most-frequent-role metric is
    computed without an exception; it is a role of the frame, and no role
    has more rows than it has. *)
Theorem cargo_mais_frequente_spec (dff : DataFrame) :
  dff ≠ [] →
  ∃ c, idxmax (value_counts (cargo <$> dff)) = inr c
    ∧ c ∈ cargo <$> dff
    ∧ ∀ c', (length (grupo cargo c' dff) ≤ length (grupo cargo c dff))%nat.
Proof.
  intros Hne.
  destruct (value_counts (cargo <$> dff)) as [|x vc] eqn:Hvc.
  { exfalso. eapply value_counts_nonempty; [|exact Hvc]. by destruct dff. }
  destruct (idxmax_desde_spec x vc) as ([c n] & Hb & Hres & Hmax).
  exists c. split; [simpl; by rewrite Hres|].
  rewrite <- Hvc in Hb, Hmax. apply elem_of_value_counts in Hb as [Hc ->].
  split; [done|]. intros c'. rewrite <- !contagem_coluna.
  destruct (decide (c' ∈ cargo <$> dff)) as [Hin|Hnin].
  - apply (Hmax (c', _)). by apply elem_of_value_counts.
  - destruct (filter (λ y, y = c') (cargo <$> dff)) as [|y l] eqn:Hf;
      [simpl; lia|exfalso].
    assert (y ∈ filter (λ y, y = c') (cargo <$> dff)) as Hy by (rewrite Hf; left).
    apply list_elem_of_filter in Hy as [-> Hy]. by apply Hnin.
Qed.

Lemma cargo_mais_frequente_spec_witness :
  ∃ c, idxmax (value_counts (cargo <$> df_exemplo)) = inr c
    ∧ c ∈ cargo <$> df_exemplo
    ∧ ∀ c', (length (grupo cargo c' df_exemplo)
             ≤ length (grupo cargo c df_exemplo))%nat.
Proof. apply (cargo_mais_frequente_spec df_exemplo). discriminate. Defined.

Lemma StronglySorted_impl {A} (R1 R2 : relation A) l :
  (∀ x y, R1 x y → R2 x y) → StronglySorted R1 l → StronglySorted R2 l.
Proof.
  intros HR. induction 1 as [|x l _ IH Hx]; constructor; [done|].
  eapply Forall_impl; [exact Hx|]. intros y. apply HR.
Qed.

Lemma sum_indicator `{EqDecision K} (k0 : K) ks :
  NoDup ks →
  sum_list ((λ k, if decide (k0 = k) then 1%nat else 0%nat) <$> ks)
  = if decide (k0 ∈ ks) then 1%nat else 0%nat.
Proof.
  induction 1 as [|k ks Hnotin _ IH]; [done|].
  rewrite fmap_cons. simpl. rewrite IH.
  destruct (decide (k0 = k)) as [Heq|Hne], (decide (k0 ∈ ks)) as [Hin|Hnin],
    (decide (k0 ∈ k :: ks)) as [Hin'|Hnin'];
    try done; exfalso; rewrite ?elem_of_cons in *; subst; tauto.
Qed.

Lemma sum_list_plus {A} (f g : A → nat) (l : list A) :
  sum_list ((λ x, f x + g x)%nat <$> l)
  = (sum_list (f <$> l) + sum_list (g <$> l))%nat.
Proof. induction l as [|x l IH]; [done|]. rewrite !fmap_cons. simpl. lia. Qed.

(** Counting a column label by label counts every entry once. *)
Lemma sum_contagens `{EqDecision K} (ks l : list K) :
  NoDup ks → (∀ x, x ∈ l → x ∈ ks) →
  sum_list ((λ k, length (filter (λ y, y = k) l)) <$> ks) = length l.
Proof.
  intros Hnd. induction l as [|x l IH]; intros Hin.
  - clear. induction ks as [|k ks IHk]; [done|].
    rewrite fmap_cons. simpl in *. exact IHk.
  - erewrite (list_fmap_ext _
      (λ k, (if decide (x = k) then 1 else 0) + length (filter (λ y, y = k) l))%nat).
    + rewrite sum_list_plus, (sum_indicator x ks Hnd), IH.
      * rewrite decide_True by (apply Hin; left). done.
      * intros y Hy. apply Hin. by right.
    + intros _ k _. rewrite filter_cons. by destruct (decide (x = k)).
Qed.

(** X9. The frequency table behind the work-mode pie chart lists every
    label of the column once, each with its number of rows, most frequent
    first, and its counts add up to the number of rows. *)
Theorem value_counts_spec (col : list string) :
  NoDup (fst <$> value_counts col)
  ∧ (∀ k n, (k, n) ∈ value_counts col
            ↔ k ∈ col ∧ n = length (filter (λ y, y = k) col))
  ∧ StronglySorted (λ a b, (snd b ≤ snd a)%nat) (value_counts col)
  ∧ total_contagens (value_counts col) = length col.
Proof.
  split; [|split; [apply elem_of_value_counts|split]].
  - unfold value_counts. rewrite ordenar_Permutation, <- list_fmap_compose.
    rewrite (list_fmap_ext _ id (unique col)) by done.
    rewrite list_fmap_id. apply NoDup_unique.
  - unfold value_counts.
    apply (StronglySorted_impl (λ a b, (snd b <=? snd a)%nat = true)).
    { intros a b H. by apply Nat.leb_le. }
    apply ordenar_sorted.
    + intros a b. rewrite !Nat.leb_le. lia.
    + intros a b c. rewrite !Nat.leb_le. lia.
  - unfold total_contagens, value_counts.
    rewrite ordenar_Permutation, <- list_fmap_compose.
    apply (sum_contagens (unique col) col); [apply NoDup_unique|].
    intros x Hx. by apply elem_of_unique.
Qed.

(** ** Top-N by role, as N varies *)

Lemma elem_of_take_le {A} (l : list A) (n m : nat) x :
  (n ≤ m)%nat → x ∈ take n l → x ∈ take m l.
Proof.
  intros Hnm Hx. replace n with (n `min` m)%nat in Hx by lia.
  rewrite <- take_take in Hx. by apply subseteq_take in Hx.
Qed.

Lemma length_salario_cargo (dff : DataFrame) :
  length (salario_cargo dff) = length (unique (cargo <$> dff)).
Proof.
  unfold salario_cargo, groupby_mean.
  by rewrite length_fmap, sorted_str_Permutation.
Qed.

(** X10. Raising the Top-N count only adds bars: every row of the Top-n
    frame is a row of the Top-m frame whenever n is at most m. *)
Theorem top_cargos_monotone (dff : DataFrame) (n m : Z) :
  (n ≤ m)%Z → top_cargos dff n ⊆ top_cargos dff m.
Proof.
  intros Hnm x. rewrite !top_cargos_Permutation. unfold nlargest.
  destruct (decide (n ≤ 0)%Z); [by intros ?%not_elem_of_nil|].
  rewrite decide_False by lia. apply elem_of_take_le. lia.
Qed.

Lemma top_cargos_monotone_witness :
  top_cargos df_empate 5 ⊆ top_cargos df_empate 6.
Proof. apply (top_cargos_monotone df_empate 5 6). lia. Defined.

(** X11. When the filtered frame has no more roles than the Top-N count,
    the Top-N frame holds every role of the frame with its mean. *)
Theorem top_cargos_all (dff : DataFrame) (n : Z) :
  (length (unique (cargo <$> dff)) ≤ Z.to_nat n)%nat →
  top_cargos dff n ≡ₚ salario_cargo dff
  ∧ ∀ c, c ∈ cargo <$> dff →
      (c, mean (usd <$> grupo cargo c dff)) ∈ top_cargos dff n.
Proof.
  intros Hlen. rewrite <- length_salario_cargo in Hlen.
  assert (top_cargos dff n ≡ₚ salario_cargo dff) as Hperm.
  { rewrite top_cargos_Permutation. unfold nlargest.
    destruct (decide (n ≤ 0)%Z).
    - destruct (salario_cargo dff); [done|simpl in Hlen; lia].
    - rewrite take_ge by (by rewrite length_ordenar).
      apply ordenar_Permutation. }
  split; [done|]. intros c Hc. rewrite Hperm. by apply elem_of_salario_cargo.
Qed.

Lemma top_cargos_all_witness :
  top_cargos df_exemplo 5 ≡ₚ salario_cargo df_exemplo.
Proof.
  destruct (top_cargos_all df_exemplo 5) as [Hperm _]; [vm_compute; lia|exact Hperm].
Defined.

(** ** The country-year aggregate, continued *)

Lemma df_anim_grupos countries_get (ds : DataFrame) :
  df_anim countries_get ds
    = inr (linha_do_grupo countries_get ds <$> media_ano_pais ds).
Proof.
  unfold df_anim. apply apply_rows_pure.
  intros [k m] Hg. rewrite media_ano_pais_Permutation in Hg.
  apply (elem_of_groupby_mean _ _ sorted_par_Permutation) in Hg as [Hk ->].
  unfold linha_de_anim, getitem. simpl.
  by rewrite (media_global_lookup ds (fst k) (ano_of_ano_pais ds k Hk)).
Qed.

Lemma length_media_ano_pais (ds : DataFrame) :
  length (media_ano_pais ds) = length (unique (ano_pais <$> ds)).
Proof.
  rewrite media_ano_pais_Permutation. unfold groupby_mean.
  by rewrite length_fmap, sorted_par_Permutation.
Qed.

Lemma chave_linha_do_grupo countries_get (ds : DataFrame)
    (gs : list (Z * string * Q)) :
  (λ row, (a_ano row, a_residencia_iso3 row))
    <$> (linha_do_grupo countries_get ds <$> gs) = fst <$> gs.
Proof.
  rewrite <- list_fmap_compose. induction gs as [|[[a p] m] gs IH]; [done|].
  rewrite !fmap_cons, IH. reflexivity.
Qed.

(** X12. On every frame of the data model the country-year aggregate is
    built without a [KeyError]; its rows come in descending order of mean
    salary, and their (year, country) keys are pairwise distinct and are
    exactly the pairs that occur in the frame: one row per pair. *)
Theorem df_anim_sorted (countries_get : string → option country) (ds : DataFrame) :
  ∃ rows, df_anim countries_get ds = inr rows
    ∧ StronglySorted (λ r1 r2, (a_usd r2 <= a_usd r1)%Q) rows
    ∧ NoDup ((λ row, (a_ano row, a_residencia_iso3 row)) <$> rows)
    ∧ (∀ k, k ∈ (λ row, (a_ano row, a_residencia_iso3 row)) <$> rows
            ↔ k ∈ ano_pais <$> ds)
    ∧ length rows = length (unique (ano_pais <$> ds)).
Proof.
  eexists. split; [apply df_anim_grupos|]. split; [|split; [|split]].
  - apply StronglySorted_fmap with
      (R1 := λ a b : Z * string * Q, Qle_bool (snd b) (snd a) = true).
    { intros a b H. simpl. by apply Qle_bool_iff. }
    unfold media_ano_pais. apply ordenar_sorted.
    + intros a b. rewrite !Qle_bool_iff.
      destruct (Qlt_le_dec (snd a) (snd b)); [right; by apply Qlt_le_weak|by left].
    + intros a b c. rewrite !Qle_bool_iff. intros ? ?. by eapply Qle_trans.
  - rewrite chave_linha_do_grupo, fst_media_ano_pais. apply NoDup_unique.
  - intros k. by rewrite chave_linha_do_grupo, fst_media_ano_pais, elem_of_unique.
  - by rewrite length_fmap, length_media_ano_pais.
Qed.

(** X13. The dict of yearly means has exactly the years of the frame as
    keys: looking up a year of the frame gives the mean salary of that
    year's rows, and looking up any other year raises [KeyError]. *)
Theorem media_global_getitem (ds : DataFrame) (a : Z) :
  getitem (media_global ds) a
  = if decide (a ∈ ano <$> ds) then inr (mean (usd <$> grupo ano a ds))
    else inl KeyError.
Proof.
  unfold getitem. destruct (decide (a ∈ ano <$> ds)) as [Hin|Hnin].
  - by rewrite media_global_lookup.
  - unfold media_global. rewrite not_elem_of_list_to_map_1; [done|].
    by rewrite fst_groupby_mean, sorted_Z_Permutation, elem_of_unique.
Qed.

(** ** The script and the page *)

Lemma vazio_true (df : DataFrame) : vazio df = true → df = [].
Proof. by destruct df. Qed.

Lemma vazio_spec (df : DataFrame) : vazio df = bool_decide (df = []).
Proof. by destruct df. Qed.

Lemma cargo_frequente_idxmax (dff : DataFrame) c :
  idxmax (value_counts (cargo <$> dff)) = inr c → cargo_frequente dff = c.
Proof.
  unfold idxmax, cargo_frequente.
  destruct (value_counts (cargo <$> dff)); [done|]. by intros [= ->].
Qed.

Lemma graficos_gerais_run (dff : DataFrame) top_n bins p :
  graficos_gerais dff top_n bins p = (inr tt, p ++ pagina_graficos dff top_n bins).
Proof.
  unfold pagina_graficos. destruct (vazio dff) eqn:Hv.
  - apply vazio_true in Hv as ->. by rewrite app_nil_r.
  - apply graficos_gerais_nonempty. by intros ->.
Qed.

Lemma secao_cientistas_run countries_get (dff : DataFrame) p :
  secao_cientistas countries_get dff p
  = (inr tt, p ++ pagina_cientistas countries_get dff).
Proof.
  unfold secao_cientistas, pagina_cientistas.
  destruct (vazio dff); simpl.
  { by rewrite app_nil_r. }
  cbv [mbind St_bind lift emit].
  destruct (vazio (df_ds dff)); simpl; [done|].
  rewrite df_anim_grupos. by rewrite <- app_assoc.
Qed.

(** The script leaves on the page what [pagina] describes, after whatever
    was there, and ends without an exception. *)
Lemma app_run countries_get (df : DataFrame) (ui : sessao) p :
  app countries_get df ui p = (inr tt, p ++ pagina countries_get df ui).
Proof.
  unfold app, pagina.
  set (dff := df_filtrado df (selecao_de df ui)).
  assert (∃ m1 m2 m3 m4, metricas dff = inr (m1, m2, m3, m4)
            ∧ pagina_metricas dff
              = [ metric "Salário médio" m1; metric "Salário máximo" m2;
                  metric "Total de registros" m3;
                  metric "Cargo mais frequente" m4 ])
    as (m1 & m2 & m3 & m4 & Hmet & Hpag).
  { unfold pagina_metricas. destruct (vazio dff) eqn:Hv.
    - apply vazio_true in Hv as ->. by do 4 eexists.
    - destruct (metricas_nonempty dff) as (c & Hc & Hmet); [by intros ->|].
      rewrite (cargo_frequente_idxmax dff c Hc). by do 4 eexists. }
  cbv [mbind St_bind lift emit]. rewrite Hmet, Hpag.
  rewrite graficos_gerais_run, secao_cientistas_run.
  simpl. by rewrite <- !app_assoc.
Qed.

(** X15. The finished page always shows exactly four metrics; it shows no
    chart when the filtered frame is empty, three charts when the frame has
    rows but none of a Data Scientist, and four charts otherwise. *)
Theorem app_chart_count (countries_get : string → option country)
    (df : DataFrame) (ui : sessao) :
  let dff := df_filtrado df (selecao_de df ui) in
  let page := snd (app countries_get df ui []) in
  length (filter e_metrica page) = 4%nat
  ∧ length (filter e_grafico page)
    = if vazio dff then 0%nat else if vazio (df_ds dff) then 3%nat else 4%nat.
Proof.
  intros dff page. unfold page. rewrite app_run. simpl. fold dff.
  unfold pagina. fold dff.
  unfold pagina_metricas, pagina_graficos, pagina_cientistas.
  destruct (vazio dff); [done|]. by destruct (vazio (df_ds dff)).
Qed.

(** X16. The page always ends with the data table, which holds the first
    1000 rows of the filtered frame, and all of them when there are no more
    than 1000. *)
Theorem app_table_capped (countries_get : string → option country)
    (df : DataFrame) (ui : sessao) :
  let dff := df_filtrado df (selecao_de df ui) in
  ∃ rows, last (snd (app countries_get df ui [])) = Some (dataframe rows)
    ∧ rows `prefix_of` dff
    ∧ length rows = (1000 `min` length dff)%nat
    ∧ ((length dff ≤ 1000)%nat → rows = dff).
Proof.
  intros dff. exists (take 1000 dff). split; [|split; [|split]].
  - rewrite app_run. unfold pagina, snd. fold dff.
    rewrite !app_assoc. by rewrite last_app.
  - apply prefix_take.
  - apply length_take.
  - apply take_ge.
Qed.

(** X17. When the filtered frame has at least one Data Scientist row, the
    Data Scientist section writes its subheader followed by one animated
    chart, whose data is the non-empty country-year aggregate. *)
Theorem secao_cientistas_chart (countries_get : string → option country)
    (dff : DataFrame) (p : list elemento) :
  df_ds dff ≠ [] →
  ∃ rows, df_anim countries_get (df_ds dff) = inr rows ∧ rows ≠ []
    ∧ secao_cientistas countries_get dff p
      = (inr tt, p ++ [ subheader "Cientistas de Dados";
                        plotly_chart (fig_bar_anim rows) ]).
Proof.
  intros Hds. eexists. split; [apply df_anim_grupos|]. split.
  - intros Hnil%(f_equal length).
    rewrite length_fmap, length_media_ano_pais in Hnil.
    by destruct (df_ds dff).
  - rewrite secao_cientistas_run. unfold pagina_cientistas.
    assert (dff ≠ []) as Hne by (intros ->; by apply Hds).
    by rewrite (vazio_false _ Hne), (vazio_false _ Hds).
Qed.

Lemma secao_cientistas_chart_witness :
  ∃ rows, df_anim countries_exemplo (df_ds df_exemplo) = inr rows ∧ rows ≠ []
    ∧ secao_cientistas countries_exemplo df_exemplo []
      = (inr tt, [ subheader "Cientistas de Dados";
                   plotly_chart (fig_bar_anim rows) ]).
Proof.
  apply (secao_cientistas_chart countries_exemplo df_exemplo []).
  vm_compute. discriminate.
Defined.

(** ** Country enrichment, any code *)

(** X18. For a code of any length that the country table does not hold,
    the display name is the code itself and the abbreviation is the prefix
    of the code of at most two characters: the whole code when it is
    shorter than two. *)
Theorem obter_pais_info_fallback (countries_get : string → option country)
    (code : string) :
  countries_get code = None →
  fst (obter_pais_info countries_get code) = code
  ∧ String.prefix (snd (obter_pais_info countries_get code)) code = true
  ∧ String.length (snd (obter_pais_info countries_get code))
    = (2 `min` String.length code)%nat.
Proof.
  intros Hnone. unfold obter_pais_info. rewrite Hnone. simpl.
  split; [done|].
  destruct code as [|a [|b code]]; simpl.
  - done.
  - by destruct (Ascii.ascii_dec a a).
  - destruct (Ascii.ascii_dec a a); [|done].
    destruct (Ascii.ascii_dec b b); [|done]. by destruct code.
Qed.

Lemma obter_pais_info_fallback_witness :
  fst (obter_pais_info countries_exemplo "X") = "X"
  ∧ String.prefix (snd (obter_pais_info countries_exemplo "X")) "X" = true
  ∧ String.length (snd (obter_pais_info countries_exemplo "X"))
    = (2 `min` String.length "X")%nat.
Proof. apply (obter_pais_info_fallback countries_exemplo "X"). reflexivity. Defined.

(** ** Figure layout *)

(** X19. [padronizar_layout] raises [ValueError] exactly when the height is
    below 10 or the title position lies outside the interval from 0 to 1,
    which the arguments the script passes (height 400, default position)
    never are.  Otherwise it keeps the data of the figure, assigns only the
    ten layout properties it names and leaves every other property as it
    was; and applying it again gives what the later call alone would give:
    in particular it is idempotent. *)
Theorem padronizar_layout_spec (fig : figure) (altura : option Z)
    (titulo_x : option Q) :
  (padronizar_layout fig altura titulo_x = inl ValueError
   ↔ (default 400 altura < 10)%Z
     ∨ ¬ (0 <= default (5 # 100) titulo_x <= 1)%Q)
  ∧ (∃ fig', padronizar_layout fig (Some 400%Z) None = inr fig')
  ∧ ∀ fig', padronizar_layout fig altura titulo_x = inr fig' →
      fig_data fig' = fig_data fig
      ∧ (∀ k, k ∉ propriedades_padronizadas →
           fig_layout fig' !! k = fig_layout fig !! k)
      ∧ fig_layout fig' !! "height" = Some (v_int (default 400%Z altura))
      ∧ fig_layout fig' !! "title.x"
        = Some (v_num (default (5 # 100)%Q titulo_x))
      ∧ (∀ altura' titulo_x',
           padronizar_layout fig' altura' titulo_x'
           = padronizar_layout fig altura' titulo_x')
      ∧ padronizar_layout fig' altura titulo_x = inr fig'.
Proof.
  assert (∀ x : Q, negb (Qle_bool 0 x && Qle_bool x 1) = true
                   ↔ ¬ (0 <= x <= 1)%Q) as Hx.
  { intros x. rewrite negb_true_iff, andb_false_iff.
    rewrite <- !not_true_iff_false, !Qle_bool_iff. split; [tauto|].
    intros Hout.
    destruct (Qlt_le_dec x 0) as [H0|H0]; [left; by apply Qlt_not_le|].
    destruct (Qlt_le_dec 1 x) as [H1|H1]; [right; by apply Qlt_not_le|].
    exfalso. by apply Hout. }
  assert (∀ f a t f', padronizar_layout f a t = inr f' →
            ∀ a' t', padronizar_layout f' a' t' = padronizar_layout f a' t') as Hagain.
  { intros f a t f'. unfold padronizar_layout.
    destruct (decide (default 400 a < 10)%Z); [done|].
    destruct (negb _); [done|]. intros [= <-] a' t'.
    destruct (decide (default 400 a' < 10)%Z); [done|].
    destruct (negb _); [done|]. simpl. do 2 f_equal.
    apply map_eq. intros k. rewrite !lookup_insert. repeat case_decide; done. }
  split; [|split].
  - unfold padronizar_layout.
    destruct (decide (default 400 altura < 10)%Z) as [Hh|Hh]; [by split; auto|].
    destruct (negb _) eqn:Hneg.
    + split; [|done]. intros _. right. by apply Hx.
    + split; [done|]. intros [?|Hout]; [done|].
      apply Hx in Hout. congruence.
  - by eexists.
  - intros fig' Hrun. pose proof (Hagain _ _ _ _ Hrun) as Hag.
    split; [|split; [|split; [|split; [|split]]]]; try exact Hag.
    + revert Hrun. unfold padronizar_layout.
      destruct (decide _); [done|]. destruct (negb _); [done|]. by intros [= <-].
    + intros k Hk. revert Hrun. unfold padronizar_layout.
      destruct (decide _); [done|]. destruct (negb _); [done|]. intros [= <-].
      unfold propriedades_padronizadas in Hk. simpl.
      rewrite !lookup_insert. repeat case_decide; try done; subst;
        exfalso; apply Hk; repeat (first [by left | right]).
    + revert Hrun. unfold padronizar_layout.
      destruct (decide _); [done|]. destruct (negb _); [done|]. intros [= <-].
      simpl. rewrite !lookup_insert. repeat case_decide; done.
    + revert Hrun. unfold padronizar_layout.
      destruct (decide _); [done|]. destruct (negb _); [done|]. intros [= <-].
      simpl. rewrite !lookup_insert. repeat case_decide; done.
    + by rewrite Hag.
Qed.

Lemma padronizar_layout_spec_witness :
  ∃ fig', padronizar_layout figura_exemplo (Some 400%Z) None = inr fig'
    ∧ fig_layout fig' !! "barmode" = Some (v_str "relative")
    ∧ fig_layout fig' !! "height" = Some (v_int 400).
Proof.
  destruct (padronizar_layout_spec figura_exemplo (Some 400%Z) None)
    as (_ & [fig' Hrun] & Hok).
  destruct (Hok fig' Hrun) as (_ & Hframe & Hheight & _).
  exists fig'. split; [exact Hrun|]. split; [|exact Hheight].
  rewrite Hframe; [reflexivity|].
  intros H. apply list_elem_of_In in H. vm_compute in H. intuition discriminate.
Defined.

(** The two ways the validation fails. *)
Example padronizar_layout_invalid :
  padronizar_layout figura_exemplo (Some 5%Z) None = inl ValueError
  ∧ padronizar_layout figura_exemplo None (Some (3 # 2)%Q) = inl ValueError.
Proof. split; reflexivity. Qed.

(** ** How the steps compose *)

(** X20. Restricting to Data Scientist rows commutes with the sidebar
    filter: the role-restricted frame of the filtered view is the filtered
    view of the role-restricted frame. *)
Theorem df_ds_df_filtrado (df : DataFrame) (s : selecao) :
  df_ds (df_filtrado df s) = df_filtrado (df_ds df) s.
Proof.
  unfold df_ds, df_filtrado. rewrite !list_filter_filter.
  apply list_filter_iff. intros r. tauto.
Qed.

(** X22. The Top-N frame is presented best-paid last: for a positive count
    and a non-empty filtered frame its last row exists, and no role of the
    frame has a greater mean than that row. *)
Theorem top_cargos_last_is_max (dff : DataFrame) (n : Z) :
  dff ≠ [] → (0 < n)%Z →
  ∃ c m, last (top_cargos dff n) = Some (c, m)
    ∧ ∀ c', c' ∈ cargo <$> dff → (mean (usd <$> grupo cargo c' dff) <= m)%Q.
Proof.
  intros Hne Hn.
  assert (StronglySorted (λ a b, (snd a <= snd b)%Q) (top_cargos dff n)) as Hs.
  { apply (StronglySorted_impl (λ a b, menor_ou_igual a b = true)).
    { intros a b H. by apply Qle_bool_iff. }
    apply ordenar_sorted; [apply menor_ou_igual_total|apply menor_ou_igual_trans]. }
  destruct (top_cargos dff n) as [|x0 l0] eqn:Htop using rev_ind.
  { exfalso. apply (f_equal length) in Htop.
    rewrite top_cargos_Permutation, length_nlargest, length_salario_cargo in Htop.
    destruct dff as [|r dff]; [done|]. simpl in Htop. lia. }
  clear IHl0. destruct x0 as [c m]. exists c, m.
  split; [apply last_snoc|].
  intros c' Hc'.
  apply StronglySorted_app in Hs as (Hlt & _ & _).
  destruct (decide (c' ∈ fst <$> top_cargos dff n)) as [Hin|Hnin].
  - apply list_elem_of_fmap in Hin as ([c'' m'] & -> & Hin). simpl.
    assert (m' = mean (usd <$> grupo cargo c'' dff)) as <-.
    { rewrite top_cargos_Permutation in Hin. apply nlargest_subseteq in Hin.
      by apply (elem_of_groupby_mean _ _ sorted_str_Permutation) in Hin as [_ ->]. }
    rewrite Htop, elem_of_app, list_elem_of_singleton in Hin.
    destruct Hin as [Hin|[= _ ->]]; [|apply Qle_refl].
    apply (Hlt _ (c, m) Hin). left.
  - assert ((c, m) ∈ nlargest n (salario_cargo dff)) as Hsel.
    { rewrite <- top_cargos_Permutation, Htop, elem_of_app. right. left. }
    destruct (nlargest_antes dff n _ _ Hsel (elem_of_salario_cargo dff c' Hc')
      (not_selected dff n c' Hnin)) as [Hle _].
    by apply Qle_bool_iff in Hle.
Qed.

Lemma top_cargos_last_is_max_witness :
  ∃ c m, last (top_cargos df_exemplo 5) = Some (c, m)
    ∧ ∀ c', c' ∈ cargo <$> df_exemplo →
        (mean (usd <$> grupo cargo c' df_exemplo) <= m)%Q.
Proof. apply (top_cargos_last_is_max df_exemplo 5); [discriminate|lia]. Defined.
